(** * Canada wildfire dashboard: the script [app.py] as a Rocq model

    [app.py] is one linear Streamlit script: it loads the NASA FIRMS feed
    into a table, normalizes it ([load_firms_data]), reads the sidebar
    controls, filters the table by the selected date and renders a map,
    metrics, charts and a CSV export.

    Conventions of the model.
    - A pandas [float64] cell is [option Q]: [None] is NaN (a missing CSV
      field), [Some q] a finite reading.  Floats are idealised as exact
      rationals; arithmetic on them occurs only in the satellite shares.
    - A [datetime64] cell is [option Timestamp]: [None] is NaT.
    - The integer columns [acq_time] and [confidence] are [option Z]:
      [None] is a missing field, which pandas reads as NaN.
    - A data frame is a list of rows, each carrying its index label, so
      that a row keeps its identity through [dropna] and boolean masks.
    - Library calls that may raise return a [Result]; the rendering part
      of the script runs in a small monad that collects the emitted page
      elements and stops at the first exception. *)

From Stdlib Require Import List ZArith QArith Qabs String Ascii Bool Lia.
From Stdlib Require Import Sorted Permutation.
Import ListNotations.

Open Scope string_scope.
Open Scope list_scope.
Open Scope Z_scope.

Set Implicit Arguments.

(** ** Python exceptions and fallible results *)

Inductive PyError : Type :=
| FetchError (url : string)          (* read_csv could not load the feed *)
| ValueError (msg : string)
| TypeError (msg : string)
| PyException (msg : string)         (* a plain [Exception] *)
| ParserError (value : string).      (* to_datetime with errors="raise" *)

Inductive Result (A : Type) : Type :=
| Ok (a : A)
| Raise (e : PyError).

Arguments Ok {A} a.
Arguments Raise {A} e.

Definition rbind {A B : Type} (c : Result A) (k : A -> Result B) : Result B :=
  match c with
  | Ok a => k a
  | Raise e => Raise e
  end.

Declare Scope result_scope.
Delimit Scope result_scope with result.
Notation "x <- c ;; k" := (rbind c (fun x => k))
  (at level 61, c at next level, right associativity) : result_scope.

(** ** Cells, dates and geometry *)

(** [float64]: [None] is NaN. *)
Abbreviation float64 := (option Q) (only parsing).

(** [datetime.date]. *)
Record Date : Type := mkDate { year : Z; month : Z; day : Z }.

(** [pandas.Timestamp]: a calendar date and the time of day in seconds. *)
Record Timestamp : Type := mkTimestamp { ts_date : Date; ts_seconds : Z }.

(** [shapely.geometry.Point]. *)
Record Point : Type := mkPoint { x : float64; y : float64 }.

Definition isna {A : Type} (c : option A) : bool :=
  match c with
  | Some _ => false
  | None => true
  end.

Definition Date_eqb (a b : Date) : bool :=
  (year a =? year b) && (month a =? month b) && (day a =? day b).

(** Python compares dates as the tuples (year, month, day). *)
Definition Date_ltb (a b : Date) : bool :=
  (year a <? year b)
  || ((year a =? year b)
      && ((month a <? month b)
          || ((month a =? month b) && (day a <? day b)))).

Definition Timestamp_ltb (a b : Timestamp) : bool :=
  Date_ltb (ts_date a) (ts_date b)
  || (Date_eqb (ts_date a) (ts_date b) && (ts_seconds a <? ts_seconds b)).

(** ** Rows and frames

    One record serves every stage of [load_firms_data]: [D] is the type of
    the [acq_date] column (text, then timestamps), [G] the type of the
    [geometry] column and [V] that of the [value] column; a column that
    does not exist yet has type [unit]. *)

Record Row (D G V : Type) : Type := mkRow {
  latitude : float64;
  longitude : float64;
  acq_date : D;
  acq_time : option Z;
  brightness : float64;
  confidence : option Z;
  satellite : option string;
  geometry : G;
  value : V
}.

Arguments mkRow {D G V}.

(** A frame is the list of its rows, each with its index label, in row
    order. *)

(** A row as [read_csv] returns it: the date is text, [None] where the
    field is empty. *)
Abbreviation RawRow := (Row (option string) unit unit) (only parsing).

(** A row of the normalized table. *)
Abbreviation FireRow := (Row (option Timestamp) Point (option Q)) (only parsing).

(** [geopandas.GeoDataFrame]: a frame with a geometry column, tagged with
    a coordinate reference system. *)
Record GeoDataFrame (V : Type) : Type := mkGeoDataFrame {
  gdf_rows : list (nat * Row (option Timestamp) Point V);
  crs : string
}.

(** The normalized table. *)
Abbreviation FireTable := (GeoDataFrame (option Q)) (only parsing).

(** [read_csv] gives the rows a [RangeIndex]: labels 0, 1, 2, ... *)
Definition range_index {R : Type} (rows : list R) : list (nat * R) :=
  combine (seq 0 (List.length rows)) rows.

(** [df[name]]: the values of one column, in row order. *)
Definition column {R A : Type} (f : R -> A) (df : list (nat * R)) : list A :=
  map (fun ir => f (snd ir)) df.

Definition index {R : Type} (df : list (nat * R)) : list nat := map fst df.

(** [df[name] = values].  For a list of values (line 17) pandas raises
    [ValueError] when their number differs from the number of rows; a
    series taken from the frame itself (lines 15 and 19) has the frame's
    index and one value per row. *)
Definition assign {R R' A : Type} (set : R -> A -> R')
    (df : list (nat * R)) (values : list A) : Result (list (nat * R')) :=
  if Nat.eqb (List.length values) (List.length df)
  then Ok (map (fun p => (fst (fst p), set (snd (fst p)) (snd p)))
               (combine df values))
  else Raise (ValueError "Length of values does not match length of index").

Definition set_acq_date {D D' G V : Type} (r : Row D G V) (d : D')
    : Row D' G V :=
  mkRow (latitude r) (longitude r) d (acq_time r) (brightness r)
        (confidence r) (satellite r) (geometry r) (value r).

Definition set_geometry {D G G' V : Type} (r : Row D G V) (g : G')
    : Row D G' V :=
  mkRow (latitude r) (longitude r) (acq_date r) (acq_time r) (brightness r)
        (confidence r) (satellite r) g (value r).

Definition set_value {D G V V' : Type} (r : Row D G V) (v : V')
    : Row D G V' :=
  mkRow (latitude r) (longitude r) (acq_date r) (acq_time r) (brightness r)
        (confidence r) (satellite r) (geometry r) v.

(** [df.dropna(subset=[...])]: keep the rows in which no listed cell is
    null.  [subset] lists the null tests of the chosen columns. *)
Definition dropna {R : Type} (subset : list (R -> bool))
    (df : list (nat * R)) : list (nat * R) :=
  filter (fun ir => forallb (fun null => negb (null (snd ir))) subset) df.

(** ** [pd.to_datetime] *)

Inductive ErrorsMode : Type := errors_raise | errors_coerce.

Section Normalization.

(** The date parser of pandas on one text value: [None] when the text is
    not a date. *)
Variable parse_datetime : string -> option Timestamp.

Definition to_datetime_cell (errors : ErrorsMode) (c : option string)
    : Result (option Timestamp) :=
  match c with
  | None => Ok None                        (* NaN becomes NaT *)
  | Some s =>
      match parse_datetime s with
      | Some t => Ok (Some t)
      | None =>
          match errors with
          | errors_coerce => Ok None       (* invalid parsing becomes NaT *)
          | errors_raise => Raise (ParserError s)
          end
      end
  end.

Fixpoint to_datetime (errors : ErrorsMode) (col : list (option string))
    : Result (list (option Timestamp)) :=
  match col with
  | [] => Ok []
  | c :: rest =>
      (t <- to_datetime_cell errors c ;;
       ts <- to_datetime errors rest ;;
       Ok (t :: ts))%result
  end.

(** ** [load_firms_data]

    [fetched] is what [pd.read_csv(FIRMS_URL)] produced: the rows of the
    feed, or the exception of a failed fetch. *)

Definition FIRMS_URL : string :=
  "https://firms.modaps.eosdis.nasa.gov/data/active_fire/modis-c6.1/csv/MODIS_C6_1_Canada_7d.csv".

Definition load_firms_data (fetched : Result (list RawRow))
    : Result FireTable :=
  (rows <- fetched ;;
   let df := range_index rows in
   dates <- to_datetime errors_coerce (column (@acq_date _ _ _) df) ;;
   df <- assign (@set_acq_date _ _ _ _) df dates ;;
   let df := dropna [ (fun r => isna (latitude r));
                      (fun r => isna (longitude r));
                      (fun r => isna (acq_date r)) ] df in
   df <- assign (@set_geometry _ _ _ _) df
           (map (fun xy => mkPoint (fst xy) (snd xy))
                (combine (column (@longitude _ _ _) df)
                         (column (@latitude _ _ _) df))) ;;
   let gdf := mkGeoDataFrame df "EPSG:4326" in
   rows' <- assign (@set_value _ _ _ _) (gdf_rows gdf)
              (column (@brightness _ _ _) (gdf_rows gdf)) ;;
   Ok (mkGeoDataFrame rows' (crs gdf)))%result.

End Normalization.

(** ** The decorator [@st.cache_data(ttl=3600)]

    The decorated function is computed on a miss and its result stored
    with the time of the call; a stored result is served while it is
    younger than [ttl] seconds.  An exception is not stored. *)

Record CacheEntry : Type := mkCacheEntry {
  cached_value : FireTable;
  cached_at : Z
}.

Definition cache_data (ttl : Z) (compute : Result FireTable)
    (cache : option CacheEntry) (now : Z)
    : Result FireTable * option CacheEntry :=
  let miss :=
    match compute with
    | Ok v => (Ok v, Some (mkCacheEntry v now))
    | Raise e => (Raise e, None)
    end in
  match cache with
  | Some entry =>
      if now <? cached_at entry + ttl
      then (Ok (cached_value entry), cache)
      else miss
  | None => miss
  end.

(** ** Series helpers used by the page *)

(** [series.dt.date]: the calendar date of each timestamp, NaT for NaT. *)
Definition dt_date (col : list (option Timestamp)) : list (option Date) :=
  map (option_map ts_date) col.

Definition opt_Date_eqb (a b : option Date) : bool :=
  match a, b with
  | Some d, Some e => Date_eqb d e
  | None, None => true
  | _, _ => false
  end.

(** [series.unique()]: the distinct values in order of first appearance. *)
Fixpoint unique_from (seen : list (option Date)) (col : list (option Date))
    : list (option Date) :=
  match col with
  | [] => []
  | c :: rest =>
      if existsb (opt_Date_eqb c) seen
      then unique_from seen rest
      else c :: unique_from (c :: seen) rest
  end.

Definition unique (col : list (option Date)) : list (option Date) :=
  unique_from [] col.

Fixpoint max_from (best : Date) (rest : list Date) : Date :=
  match rest with
  | [] => best
  | d :: rest' => max_from (if Date_ltb best d then d else best) rest'
  end.

Fixpoint all_dates (col : list (option Date)) : option (list Date) :=
  match col with
  | [] => Some []
  | None :: _ => None
  | Some d :: rest => option_map (cons d) (all_dates rest)
  end.

(** The builtin [max] on the array of dates: [ValueError] on an empty
    array; NaT cannot be ordered against a [datetime.date]. *)
Definition py_max (col : list (option Date)) : Result Date :=
  match col with
  | [] => Raise (ValueError "max() arg is an empty sequence")
  | _ :: _ =>
      match all_dates col with
      | Some (d :: rest) => Ok (max_from d rest)
      | _ => Raise (TypeError "Cannot compare NaT with datetime.date object")
      end
  end.

(** [df[mask]]: the rows at which the boolean mask is true. *)
Definition select {R : Type} (df : list (nat * R)) (mask : list bool)
    : list (nat * R) :=
  map fst (filter snd (combine df mask)).

(** [series.max()] on floats skips NaN; NaN when nothing is left. *)
Definition float_max (a b : float64) : float64 :=
  match a, b with
  | Some p, Some q => if Qle_bool p q then Some q else Some p
  | Some p, None => Some p
  | None, _ => b
  end.

Definition series_max (col : list float64) : float64 :=
  fold_left float_max col None.

Definition timestamp_max (a b : option Timestamp) : option Timestamp :=
  match a, b with
  | Some s, Some t => if Timestamp_ltb s t then Some t else Some s
  | Some s, None => Some s
  | None, _ => b
  end.

Definition series_max_timestamp (col : list (option Timestamp))
    : option Timestamp :=
  fold_left timestamp_max col None.

(** [series.value_counts()]: the number of rows per non-null value, most
    frequent first; equal counts stay in order of first appearance. *)
Fixpoint tally (k : string) (counts : list (string * nat))
    : list (string * nat) :=
  match counts with
  | [] => [(k, 1%nat)]
  | (k', n) :: rest =>
      if String.eqb k k' then (k', S n) :: rest else (k', n) :: tally k rest
  end.

Definition tally_cell (counts : list (string * nat)) (c : option string)
    : list (string * nat) :=
  match c with
  | Some k => tally k counts
  | None => counts
  end.

Fixpoint insert_desc (e : string * nat) (sorted : list (string * nat))
    : list (string * nat) :=
  match sorted with
  | [] => [e]
  | e' :: rest =>
      if Nat.leb (snd e') (snd e) then e :: sorted
      else e' :: insert_desc e rest
  end.

Definition sort_desc (counts : list (string * nat)) : list (string * nat) :=
  fold_right insert_desc [] counts.

Definition value_counts (col : list (option string)) : list (string * nat) :=
  sort_desc (fold_left tally_cell col []).

Definition total (counts : list (string * nat)) : nat :=
  fold_right (fun e acc => (snd e + acc)%nat) 0%nat counts.

Definition Q_of_nat (n : nat) : Q := inject_Z (Z.of_nat n).

(** [series.value_counts(normalize=True)]: counts divided by their sum. *)
Definition value_counts_normalized (col : list (option string))
    : list (string * Q) :=
  let counts := value_counts col in
  map (fun e => (fst e, (Q_of_nat (snd e) / Q_of_nat (total counts))%Q))
      counts.

(** [series * 100]. *)
Definition times (factor : Q) (s : list (string * Q)) : list (string * Q) :=
  map (fun e => (fst e, (snd e * factor)%Q)) s.

(** [df.groupby(keys).size()]: the number of rows per key, keys ascending. *)
Fixpoint bump (k : Z) (sizes : list (Z * nat)) : list (Z * nat) :=
  match sizes with
  | [] => [(k, 1%nat)]
  | (k', n) :: rest =>
      if k <? k' then (k, 1%nat) :: sizes
      else if k =? k' then (k', S n) :: rest
      else (k', n) :: bump k rest
  end.

Definition count_key (sizes : list (Z * nat)) (k : option Z)
    : list (Z * nat) :=
  match k with
  | Some k' => bump k' sizes
  | None => sizes                (* rows with a NaN key are left out *)
  end.

Definition groupby_size (keys : list (option Z)) : list (Z * nat) :=
  fold_left count_key keys [].

(** [series // 100]: Python floor division; NaN stays NaN. *)
Definition floordiv (col : list (option Z)) (d : Z) : list (option Z) :=
  map (option_map (fun t => t / d)) col.

(** ** The page

    What the script puts on the page, in script order.  Layout containers
    ([st.columns], the sidebar) do not change what is computed and are
    left out; the input widgets are read from [Sidebar]. *)

Record Popup : Type := mkPopup {
  popup_date : option Date;
  popup_bright : float64;
  popup_conf : option Z
}.

Record Marker : Type := mkMarker {
  marker_location : float64 * float64;   (* [latitude, longitude] *)
  marker_popup : Popup
}.

Record LeafMap : Type := mkLeafMap {
  center : Z * Z;
  zoom : Z;
  height : Z;
  basemap : string;
  heatmap : option (list (float64 * float64 * float64));
  markers : list Marker
}.

Inductive MetricValue : Type :=
| MetricCount (n : nat)
| MetricFloat1 (v : float64)          (* formatted with one decimal *)
| MetricDate (d : option Date)
| MetricText (s : string).

Inductive Element : Type :=
| Header (text : string)
| Markdown (text : string)
| Caption (text : string)
| MapElement (m : LeafMap)
| Metric (label : string) (v : MetricValue)
| PieChart (names : list string) (values : list Q) (title : string)
| BarChart (xs : list Z) (ys : list nat) (title : string)
| Histogram (xs : list (option Z)) (title : string)
| DownloadButton (label : string) (data : string) (file_name : string)
| Warning (text : string).

Inductive Province : Type := AllProvinces | Quebec | Alberta | Ontario.
Inductive City : Type := AllCities | RedDeer | Toronto.
Inductive Basemap : Type :=
  OpenStreetMap | CartoDB_Positron | CartoDB_DarkMatter.

(** The state of the input widgets when the script runs.  [ui_date] is
    [None] while the user has not touched the date input, which then
    returns its default value. *)
Record Sidebar : Type := mkSidebar {
  ui_province : Province;
  ui_city : City;
  ui_date : option Date;
  ui_basemap : Basemap;
  ui_hotspots : bool;
  ui_temperature : bool;
  ui_wind : bool;
  ui_precipitation : bool
}.

Definition date_input (chosen : option Date) (default : Date) : Date :=
  match chosen with
  | Some d => d
  | None => default
  end.

Definition basemap_dict (choice : Basemap) : string :=
  match choice with
  | OpenStreetMap => "OpenStreetMap"
  | CartoDB_Positron => "CartoDB.Positron"
  | CartoDB_DarkMatter => "CartoDB.DarkMatter"
  end.

(** The script monad: the elements emitted so far are threaded through;
    an exception stops the run and leaves what was already emitted. *)
Definition Script (A : Type) : Type :=
  list Element -> Result A * list Element.

Definition sret {A : Type} (a : A) : Script A := fun out => (Ok a, out).

Definition sbind {A B : Type} (c : Script A) (k : A -> Script B) : Script B :=
  fun out =>
    match c out with
    | (Ok a, out') => k a out'
    | (Raise e, out') => (Raise e, out')
    end.

Definition lift {A : Type} (r : Result A) : Script A := fun out => (r, out).

Definition emit (e : Element) : Script unit := fun out => (Ok tt, out ++ [e]).

Definition when (b : bool) (c : Script unit) : Script unit :=
  if b then c else sret tt.

Declare Scope script_scope.
Delimit Scope script_scope with script.
Notation "x <- c ;; k" := (sbind c (fun x => k))
  (at level 61, c at next level, right associativity) : script_scope.
Notation "c ;; k" := (sbind c (fun _ => k))
  (at level 61, right associativity) : script_scope.

(** [df.empty] *)
Definition empty {R : Type} (df : list (nat * R)) : bool :=
  match df with
  | [] => true
  | _ :: _ => false
  end.

(** Line 47: [gdf[gdf["acq_date"].dt.date == selected_date]]. *)
Definition filter_by_date (gdf : FireTable) (selected_date : Date)
    : FireTable :=
  mkGeoDataFrame
    (select (gdf_rows gdf)
       (map (fun d => opt_Date_eqb d (Some selected_date))
            (dt_date (column (@acq_date _ _ _) (gdf_rows gdf)))))
    (crs gdf).

(** Lines 56-64. *)
Definition marker_of (row : FireRow) : Marker :=
  mkMarker (latitude row, longitude row)
    (mkPopup (option_map ts_date (acq_date row)) (brightness row)
             (confidence row)).

(** [m.add_heatmap(data=..., latitude=..., longitude=..., value=...)]:
    leafmap hands the three columns to folium's [HeatMap], which refuses a
    NaN location and then a NaN anywhere in the data, and raises what went
    wrong again as a plain [Exception]. *)
Definition add_heatmap (m : LeafMap)
    (data : list (float64 * float64 * float64)) : Result LeafMap :=
  if existsb (fun p => isna (fst (fst p)) || isna (snd (fst p))) data
  then Raise (PyException "Location values cannot contain NaNs.")
  else if existsb (fun p => isna (snd p)) data
  then Raise (PyException "data may not contain NaNs.")
  else Ok (mkLeafMap (center m) (zoom m) (height m) (basemap m)
             (Some data) (markers m)).

(** [m.add_marker([lat, lon], popup=popup)]: folium's [Marker] refuses a
    NaN location. *)
Definition add_marker (m : LeafMap) (mk : Marker) : Result LeafMap :=
  if isna (fst (marker_location mk)) || isna (snd (marker_location mk))
  then Raise (ValueError "Location values cannot contain NaNs.")
  else Ok (mkLeafMap (center m) (zoom m) (height m) (basemap m) (heatmap m)
             (markers m ++ [mk])).

(** Lines 61-63: the loop over [filtered.iterrows()]. *)
Fixpoint add_markers (m : LeafMap) (rows : list (nat * FireRow))
    : Result LeafMap :=
  match rows with
  | [] => Ok m
  | ir :: rest =>
      (m' <- add_marker m (marker_of (snd ir)) ;; add_markers m' rest)%result
  end.

(** Lines 57-63: the map before it is rendered. *)
Definition build_map (filtered : list (nat * FireRow))
    (selected_basemap : string) (show_hotspots : bool) : Result LeafMap :=
  let m := mkLeafMap (56, -106) 4 500 selected_basemap None [] in
  if negb (empty filtered) then
    (m <- (if show_hotspots
           then add_heatmap m
                  (map (fun ir => (latitude (snd ir), longitude (snd ir),
                                   value (snd ir))) filtered)
           else Ok m) ;;
     add_markers m filtered)%result
  else Ok m.

Definition map_section (filtered : list (nat * FireRow))
    (selected_basemap : string) (show_hotspots : bool) : Script unit :=
  (m <- lift (build_map filtered selected_basemap show_hotspots) ;;
   emit (MapElement m))%script.

(** Lines 66-72. *)
Definition kpi_section (filtered : list (nat * FireRow)) : Script unit :=
  (emit (Markdown "### 🎯 Key Metrics") ;;
   emit (Metric "Total Fires" (MetricCount (List.length filtered))) ;;
   when (negb (empty filtered))
     (emit (Metric "Max Brightness"
              (MetricFloat1 (series_max (column (@brightness _ _ _) filtered)))) ;;
      emit (Metric "Latest Detection"
              (MetricDate (option_map ts_date
                 (series_max_timestamp (column (@acq_date _ _ _) filtered))))) ;;
      emit (Metric "Latest City" (MetricText "—"))))%script.

(** Line 76. *)
Definition fire_by_sat (filtered : list (nat * FireRow)) : list (string * Q) :=
  times 100 (value_counts_normalized (column (@satellite _ _ _) filtered)).

(** Lines 74-78. *)
Definition pie_section (filtered : list (nat * FireRow)) : Script unit :=
  when (negb (empty filtered))
    (emit (PieChart (map fst (fire_by_sat filtered))
             (map snd (fire_by_sat filtered)) "🔥 Fire % by Satellite")).

(** Line 87. *)
Definition hourly (filtered : list (nat * FireRow)) : list (Z * nat) :=
  groupby_size (floordiv (column (@acq_time _ _ _) filtered) 100).

(** Lines 85-94. *)
Definition charts_section (filtered : list (nat * FireRow)) : Script unit :=
  (when (negb (empty filtered))
     (emit (BarChart (map fst (hourly filtered)) (map snd (hourly filtered))
              "Hourly Fire Frequency")) ;;
   when (negb (empty filtered))
     (emit (Histogram (column (@confidence _ _ _) filtered)
              "🔥 Confidence Levels")))%script.

Section App.

Variable parse_datetime : string -> option Timestamp.

(** [DataFrame.to_csv(index=...)], the CSV serializer of pandas. *)
Variable to_csv : bool -> list (nat * FireRow) -> string.

(** Lines 97-101. *)
Definition export_section (filtered : list (nat * FireRow)) : Script unit :=
  (emit (Markdown "### 💾 Export Filtered Data") ;;
   if negb (empty filtered)
   then emit (DownloadButton "⬇️ Download CSV" (to_csv false filtered)
                "filtered_fires.csv")
   else emit (Warning "No fire data available for selected date."))%script.

(** Lines 24-101: the script below the call of [load_firms_data].  It
    returns the filtered table. *)
Definition page (loaded : Result FireTable) (ui : Sidebar)
    : Script FireTable :=
  (gdf <- lift loaded ;;
   emit (Header "📍 Filters") ;;
   let province := ui_province ui in
   let city := ui_city ui in
   let available_dates :=
     unique (dt_date (column (@acq_date _ _ _) (gdf_rows gdf))) in
   default <- lift (py_max available_dates) ;;
   let selected_date := date_input (ui_date ui) default in
   emit (Markdown "### 🗺️ Basemap") ;;
   let selected_basemap := basemap_dict (ui_basemap ui) in
   emit (Markdown "### 🌐 Layers") ;;
   let show_hotspots := ui_hotspots ui in
   let filtered := filter_by_date gdf selected_date in
   emit (Markdown "## 🔥 Canada Wildfire Dashboard") ;;
   emit (Caption "Powered by NASA FIRMS – MODIS C6.1 (Last 7 Days)") ;;
   map_section (gdf_rows filtered) selected_basemap show_hotspots ;;
   kpi_section (gdf_rows filtered) ;;
   pie_section (gdf_rows filtered) ;;
   emit (Markdown "### 📊 Fire Activity Trends") ;;
   charts_section (gdf_rows filtered) ;;
   export_section (gdf_rows filtered) ;;
   sret filtered)%script.

(** One run of [app.py]: [fetched] is what [read_csv] gives if it is
    called, [cache] the state of the [st.cache_data] cache and [now] the
    clock.  The result is the outcome of the run, the page, and the cache
    afterwards. *)
Definition app (fetched : Result (list RawRow)) (cache : option CacheEntry)
    (now : Z) (ui : Sidebar)
    : Result FireTable * list Element * option CacheEntry :=
  let '(gdf, cache') :=
    cache_data 3600 (load_firms_data parse_datetime fetched) cache now in
  (page gdf ui [], cache').

End App.

(** ** Sample data

    A parser for the date format of the FIRMS feed, [YYYY-MM-DD], to run
    the model on concrete feeds.  The theorems hold for any parser. *)

Definition digit (c : ascii) : option Z :=
  let n := Z.of_nat (nat_of_ascii c) in
  if (48 <=? n) && (n <=? 57) then Some (n - 48) else None.

Definition number (cs : list ascii) : option Z :=
  fold_left
    (fun acc c =>
       match acc, digit c with
       | Some n, Some d => Some (10 * n + d)
       | _, _ => None
       end)
    cs (Some 0).

Definition leap (y : Z) : bool :=
  ((y mod 4 =? 0) && negb (y mod 100 =? 0)) || (y mod 400 =? 0).

Definition days_in_month (y m : Z) : Z :=
  if m =? 2 then (if leap y then 29 else 28)
  else if (m =? 4) || (m =? 6) || (m =? 9) || (m =? 11) then 30
  else 31.

Definition parse_iso_date (s : string) : option Timestamp :=
  match list_ascii_of_string s with
  | [y1; y2; y3; y4; s1; m1; m2; s2; d1; d2] =>
      if Ascii.eqb s1 "-" && Ascii.eqb s2 "-" then
        match number [y1; y2; y3; y4], number [m1; m2], number [d1; d2] with
        | Some y, Some m, Some d =>
            if (1 <=? m) && (m <=? 12) && (1 <=? d) && (d <=? days_in_month y m)
            then Some (mkTimestamp (mkDate y m d) 0)
            else None
        | _, _, _ => None
        end
      else None
  | _ => None
  end.

Definition detection (lat lon : float64) (date : option string) (time : Z)
    (bright : float64) (conf : option Z) (sat : option string) : RawRow :=
  mkRow lat lon date (Some time) bright conf sat tt tt.

(** Three detections on two days, a row without latitude and a row with
    a malformed date. *)
Definition first_detection : RawRow :=
  detection (Some (551 # 10)%Q) (Some (-1102 # 10)%Q) (Some "2024-05-01")
    1345 (Some (3001 # 10)%Q) (Some 80) (Some "Aqua").

Definition sample_feed : list RawRow :=
  [ first_detection;
    detection (Some (560 # 10)%Q) (Some (-1110 # 10)%Q) (Some "2024-05-02")
      59 (Some (3105 # 10)%Q) (Some 95) (Some "Aqua");
    detection None (Some (-1000 # 10)%Q) (Some "2024-05-02")
      1200 (Some (3200 # 10)%Q) (Some 50) (Some "Terra");
    detection (Some (570 # 10)%Q) (Some (-1120 # 10)%Q) (Some "2024-05-02")
      1810 (Some (2950 # 10)%Q) (Some 60) (Some "Terra");
    detection (Some (580 # 10)%Q) (Some (-1130 # 10)%Q) (Some "yesterday")
      30 (Some (3300 # 10)%Q) (Some 70) (Some "Aqua") ].

(** [to_datetime] also reads the words today and now, as the time of the
    call.  A parser of the feed's date format that does so, at the
    granularity of days: [today] is the day of the call. *)
Definition parse_on (today : Date) (s : string) : option Timestamp :=
  if String.eqb s "today" || String.eqb s "now"
  then Some (mkTimestamp today 0)
  else parse_iso_date s.

(** A feed whose only row is dated by the word today. *)
Definition feed_dated_today : list RawRow :=
  [ detection (Some (551 # 10)%Q) (Some (-1102 # 10)%Q) (Some "today")
      1345 (Some (3001 # 10)%Q) (Some 80) (Some "Aqua") ].

(** A feed whose latest row has no brightness. *)
Definition feed_with_unmeasured_row : list RawRow :=
  [ first_detection;
    detection (Some (560 # 10)%Q) (Some (-1110 # 10)%Q) (Some "2024-05-02")
      59 None (Some 95) (Some "Aqua") ].

(** A feed whose latest row has no acquisition time. *)
Definition feed_with_untimed_row : list RawRow :=
  [ first_detection;
    mkRow (Some (560 # 10)%Q) (Some (-1110 # 10)%Q) (Some "2024-05-02")
      None (Some (3105 # 10)%Q) (Some 95) (Some "Aqua") tt tt ].

(** A feed in which no row survives: the only row has no latitude. *)
Definition feed_without_valid_rows : list RawRow :=
  [ detection None (Some (-1000 # 10)%Q) (Some "2024-05-02")
      1200 (Some (3200 # 10)%Q) (Some 50) (Some "Terra") ].

Definition untouched_sidebar : Sidebar :=
  mkSidebar AllProvinces AllCities None OpenStreetMap true false false false.

(** A stand-in for the CSV serializer in concrete runs: the satellite
    identifiers of the rows, separated by commas. *)
Definition sample_to_csv (with_index : bool) (rows : list (nat * FireRow))
    : string :=
  String.concat ","
    (map (fun ir => match satellite (snd ir) with
                    | Some s => s
                    | None => ""
                    end) rows).

Definition may_1 : Date := mkDate 2024 5 1.
Definition may_2 : Date := mkDate 2024 5 2.
Definition may_3 : Date := mkDate 2024 5 3.

Definition sample_table : FireTable :=
  match load_firms_data parse_iso_date (Ok sample_feed) with
  | Ok gdf => gdf
  | Raise _ => mkGeoDataFrame [] ""
  end.

(** ** Vocabulary of the statements *)

(** What [to_datetime] with [errors="coerce"] leaves in one cell. *)
Definition coerced (parse_datetime : string -> option Timestamp)
    (c : option string) : option Timestamp :=
  match c with
  | Some s => parse_datetime s
  | None => None
  end.

(** The test [dropna] applies to a row of the feed once its date is
    parsed. *)
Definition survives (parse_datetime : string -> option Timestamp)
    (r : RawRow) : bool :=
  negb (isna (latitude r)) && negb (isna (longitude r))
  && negb (isna (coerced parse_datetime (acq_date r))).

(** The normalized form of one row of the feed. *)
Definition normalized (parse_datetime : string -> option Timestamp)
    (r : RawRow) : FireRow :=
  mkRow (latitude r) (longitude r) (coerced parse_datetime (acq_date r))
        (acq_time r) (brightness r) (confidence r) (satellite r)
        (mkPoint (longitude r) (latitude r)) (brightness r).

(** The three null tests of line 16. *)
Definition required_cells {G V : Type}
    : list (Row (option Timestamp) G V -> bool) :=
  [ (fun r => isna (latitude r));
    (fun r => isna (longitude r));
    (fun r => isna (acq_date r)) ].

(** Whether a row was acquired on day [d]. *)
Definition acquired_on (d : Date) (r : FireRow) : bool :=
  opt_Date_eqb (option_map ts_date (acq_date r)) (Some d).

(** The values of a column that are not null, in order. *)
Fixpoint present {A : Type} (col : list (option A)) : list A :=
  match col with
  | [] => []
  | Some a :: rest => a :: present rest
  | None :: rest => present rest
  end.

(** Whether a row has an acquisition time, and one in hour [h]. *)
Definition acquired_in_hour (h : Z) (r : FireRow) : bool :=
  match acq_time r with
  | Some t => t / 100 =? h
  | None => false
  end.

(** What is on the page when the map is being built. *)
Definition page_head : list Element :=
  [ Header "📍 Filters";
    Markdown "### 🗺️ Basemap";
    Markdown "### 🌐 Layers";
    Markdown "## 🔥 Canada Wildfire Dashboard";
    Caption "Powered by NASA FIRMS – MODIS C6.1 (Last 7 Days)" ].

(** The size recorded for key [k] in a [groupby(...).size()] series. *)
Fixpoint size_at (k : Z) (sizes : list (Z * nat)) : nat :=
  match sizes with
  | [] => 0
  | (k', n) :: rest => if k =? k' then n else size_at k rest
  end.

(** The order of the keys of such a series. *)
Definition key_lt (a b : Z * nat) : Prop := fst a < fst b.

Fixpoint Qsum (qs : list Q) : Q :=
  match qs with
  | [] => 0%Q
  | q :: rest => (q + Qsum rest)%Q
  end.

(** Rows of a column that carry the satellite identifier [s], and rows
    that carry any identifier. *)
Definition carries (s : string) (c : option string) : bool :=
  match c with
  | Some k => String.eqb s k
  | None => false
  end.

Definition count_carrying (s : string) (col : list (option string)) : nat :=
  List.length (filter (carries s) col).

Definition count_identified (col : list (option string)) : nat :=
  List.length (filter (fun c => negb (isna c)) col).

(** The count recorded for [s] in a [value_counts()] series. *)
Fixpoint tallied (s : string) (counts : list (string * nat)) : nat :=
  match counts with
  | [] => 0
  | (k, n) :: rest => if String.eqb s k then n else tallied s rest
  end.

(** A feed with one detection per day; the detection of the second day
    has no satellite identifier. *)
Definition feed_with_unidentified_row : list RawRow :=
  [ detection (Some (551 # 10)%Q) (Some (-1102 # 10)%Q) (Some "2024-05-01")
      1345 (Some (3001 # 10)%Q) (Some 80) (Some "Aqua");
    detection (Some (560 # 10)%Q) (Some (-1110 # 10)%Q) (Some "2024-05-02")
      59 (Some (3105 # 10)%Q) (Some 95) None ].

(** The rows the script filters out of that feed when the date input is
    left at its default, the latest day. *)
Definition unidentified_rows : list (nat * FireRow) :=
  match load_firms_data parse_iso_date (Ok feed_with_unidentified_row) with
  | Ok gdf => gdf_rows (filter_by_date gdf may_2)
  | Raise _ => []
  end.

(** The sidebar with other province and city selections. *)
Definition select_region (p : Province) (c : City) (ui : Sidebar) : Sidebar :=
  mkSidebar p c (ui_date ui) (ui_basemap ui) (ui_hotspots ui)
            (ui_temperature ui) (ui_wind ui) (ui_precipitation ui).

Definition is_download_button (e : Element) : bool :=
  match e with
  | DownloadButton _ _ _ => true
  | _ => false
  end.

(** The map the script renders for a filtered row set. *)
Definition rendered_map (filtered : list (nat * FireRow))
    (selected_basemap : string) (show_hotspots : bool) : LeafMap :=
  mkLeafMap (56, -106) 4 500 selected_basemap
    (if negb (empty filtered) && show_hotspots
     then Some (map (fun ir => (latitude (snd ir), longitude (snd ir),
                                value (snd ir))) filtered)
     else None)
    (map (fun ir => marker_of (snd ir)) filtered).

(** Whether a row stands at a NaN location. *)
Definition nowhere (r : FireRow) : bool :=
  isna (latitude r) || isna (longitude r).

(** The exception that stops the building of the map, if any. *)
Definition map_failure (filtered : list (nat * FireRow))
    (show_hotspots : bool) : option PyError :=
  if show_hotspots && existsb (fun ir => nowhere (snd ir)) filtered
  then Some (PyException "Location values cannot contain NaNs.")
  else if show_hotspots && existsb (fun ir => isna (value (snd ir))) filtered
  then Some (PyException "data may not contain NaNs.")
  else if existsb (fun ir => nowhere (snd ir)) filtered
  then Some (ValueError "Location values cannot contain NaNs.")
  else None.

(** The page of a run that reaches its end, in terms of the filtered row
    set, the basemap and the hotspot switch. *)
Definition finished_page (to_csv : bool -> list (nat * FireRow) -> string)
    (filtered : list (nat * FireRow)) (selected_basemap : string)
    (show_hotspots : bool) : list Element :=
  [ Header "📍 Filters";
    Markdown "### 🗺️ Basemap";
    Markdown "### 🌐 Layers";
    Markdown "## 🔥 Canada Wildfire Dashboard";
    Caption "Powered by NASA FIRMS – MODIS C6.1 (Last 7 Days)";
    MapElement (rendered_map filtered selected_basemap show_hotspots);
    Markdown "### 🎯 Key Metrics";
    Metric "Total Fires" (MetricCount (List.length filtered)) ]
  ++ (if empty filtered then []
      else [ Metric "Max Brightness"
               (MetricFloat1 (series_max (column (@brightness _ _ _) filtered)));
             Metric "Latest Detection"
               (MetricDate (option_map ts_date
                  (series_max_timestamp (column (@acq_date _ _ _) filtered))));
             Metric "Latest City" (MetricText "—");
             PieChart (map fst (fire_by_sat filtered))
               (map snd (fire_by_sat filtered)) "🔥 Fire % by Satellite" ])
  ++ [ Markdown "### 📊 Fire Activity Trends" ]
  ++ (if empty filtered then []
      else [ BarChart (map fst (hourly filtered)) (map snd (hourly filtered))
               "Hourly Fire Frequency";
             Histogram (column (@confidence _ _ _) filtered)
               "🔥 Confidence Levels" ])
  ++ [ Markdown "### 💾 Export Filtered Data";
       if empty filtered
       then Warning "No fire data available for selected date."
       else DownloadButton "⬇️ Download CSV" (to_csv false filtered)
              "filtered_fires.csv" ].


(** The table [load_firms_data] builds from the rows of a feed. *)
Definition normalized_table (parse_datetime : string -> option Timestamp)
    (rows : list RawRow) : FireTable :=
  mkGeoDataFrame
    (map (fun ir => (fst ir, normalized parse_datetime (snd ir)))
         (filter (fun ir => survives parse_datetime (snd ir))
                 (range_index rows)))
    "EPSG:4326".

(** The order of a [value_counts()] series: larger counts first. *)
Definition count_ge (a b : string * nat) : Prop := (snd b <= snd a)%nat.

Definition share_ge (a b : string * Q) : Prop := (snd b <= snd a)%Q.

(** * Properties *)

Unset Implicit Arguments.

Example parse_iso_date_ok :
  parse_iso_date "2024-05-02" = Some (mkTimestamp may_2 0).
Proof. reflexivity. Qed.

Example parse_iso_date_malformed :
  parse_iso_date "yesterday" = None /\ parse_iso_date "2024-02-30" = None.
Proof. split; reflexivity. Qed.

Example sample_table_index : index (gdf_rows sample_table) = [0; 1; 3]%nat.
Proof. reflexivity. Qed.

Example sample_table_crs : crs sample_table = "EPSG:4326".
Proof. reflexivity. Qed.

Example sample_filter_may_2 :
  index (gdf_rows (filter_by_date sample_table may_2)) = [1; 3]%nat
  /\ series_max (column (@brightness _ _ _)
                   (gdf_rows (filter_by_date sample_table may_2)))
     = Some (3105 # 10)%Q.
Proof. split; reflexivity. Qed.

Example sample_filter_no_match :
  gdf_rows (filter_by_date sample_table may_3) = [].
Proof. reflexivity. Qed.

Example sample_hourly :
  hourly (gdf_rows sample_table) = [(0, 1%nat); (13, 1%nat); (18, 1%nat)].
Proof. reflexivity. Qed.

Example sample_fire_by_sat :
  fire_by_sat (gdf_rows sample_table)
  = [("Aqua", (200 # 3)%Q); ("Terra", (100 # 3)%Q)].
Proof. reflexivity. Qed.

(** ** Normalization in closed form *)

Section NormalizationFacts.

Variable parse_datetime : string -> option Timestamp.

Lemma to_datetime_coerce (col : list (option string)) :
  to_datetime parse_datetime errors_coerce col
  = Ok (map (coerced parse_datetime) col).
Proof.
  induction col as [|c rest IH]; simpl.
  - reflexivity.
  - rewrite IH. destruct c as [s|]; simpl.
    + destruct (parse_datetime s); reflexivity.
    + reflexivity.
Qed.

Lemma combine_map_same {A B : Type} (g : A -> B) (l : list A) :
  combine l (map g l) = map (fun a => (a, g a)) l.
Proof.
  induction l as [|a l IH]; simpl; [reflexivity | now rewrite IH].
Qed.

(** Assigning a column computed row by row from the frame itself. *)
Lemma assign_derived {R R' A : Type} (set : R -> A -> R') (g : R -> A)
    (df : list (nat * R)) :
  assign set df (map (fun ir => g (snd ir)) df)
  = Ok (map (fun ir => (fst ir, set (snd ir) (g (snd ir)))) df).
Proof.
  unfold assign. rewrite length_map, Nat.eqb_refl.
  rewrite combine_map_same, map_map. reflexivity.
Qed.

Lemma assign_length_mismatch {R R' A : Type} (set : R -> A -> R')
    (df : list (nat * R)) (values : list A) :
  List.length values <> List.length df ->
  exists msg, assign set df values = Raise (ValueError msg).
Proof.
  intros H. unfold assign.
  destruct (Nat.eqb_spec (List.length values) (List.length df)) as [E|_].
  - contradiction.
  - eexists. reflexivity.
Qed.

Lemma filter_map_commute {A B : Type} (f : A -> B) (p : B -> bool)
    (l : list A) :
  filter p (map f l) = map f (filter (fun a => p (f a)) l).
Proof.
  induction l as [|a l IH]; simpl; [reflexivity|].
  destruct (p (f a)); simpl; now rewrite IH.
Qed.

Lemma combine_map_map {A B C : Type} (f : A -> B) (g : A -> C) (l : list A) :
  combine (map f l) (map g l) = map (fun a => (f a, g a)) l.
Proof.
  induction l as [|a l IH]; simpl; [reflexivity | now rewrite IH].
Qed.

(** Line 15 on a frame. *)
Lemma acq_date_step (df : list (nat * RawRow)) :
  (dates <- to_datetime parse_datetime errors_coerce
              (column (@acq_date _ _ _) df) ;;
   assign (@set_acq_date _ _ _ _) df dates)%result
  = Ok (map (fun ir => (fst ir, set_acq_date (snd ir)
                          (coerced parse_datetime (acq_date (snd ir))))) df).
Proof.
  rewrite to_datetime_coerce. unfold column. rewrite map_map. cbn [rbind].
  apply (assign_derived (@set_acq_date _ _ _ _)
           (fun r => coerced parse_datetime (acq_date r))).
Qed.

(** Line 17 on a frame. *)
Lemma geometry_step {D V : Type} (df : list (nat * Row D unit V)) :
  assign (@set_geometry _ _ _ _) df
    (map (fun xy => mkPoint (fst xy) (snd xy))
         (combine (column (@longitude _ _ _) df)
                  (column (@latitude _ _ _) df)))
  = Ok (map (fun ir => (fst ir, set_geometry (snd ir)
                          (mkPoint (longitude (snd ir)) (latitude (snd ir)))))
            df).
Proof.
  unfold column. rewrite combine_map_map, map_map. cbn [fst snd].
  apply (assign_derived (@set_geometry _ _ _ _)
           (fun r => mkPoint (longitude r) (latitude r))).
Qed.

(** Line 19 on a frame. *)
Lemma value_step {D G : Type} (df : list (nat * Row D G unit)) :
  assign (@set_value _ _ _ _) df (column (@brightness _ _ _) df)
  = Ok (map (fun ir => (fst ir, set_value (snd ir) (brightness (snd ir)))) df).
Proof.
  apply (assign_derived (@set_value _ _ _ _) (fun r => brightness r)).
Qed.

Theorem load_firms_data_closed_form (rows : list RawRow) :
  load_firms_data parse_datetime (Ok rows)
  = Ok (mkGeoDataFrame
          (map (fun ir => (fst ir, normalized parse_datetime (snd ir)))
               (filter (fun ir => survives parse_datetime (snd ir))
                       (range_index rows)))
          "EPSG:4326").
Proof.
  unfold load_firms_data. cbn [rbind].
  pose proof (acq_date_step (range_index rows)) as Hdate.
  destruct (to_datetime parse_datetime errors_coerce
              (column (@acq_date _ _ _) (range_index rows)))
    as [dates|e]; cbn [rbind] in Hdate |- *; [|discriminate Hdate].
  rewrite Hdate. cbn [rbind].
  rewrite geometry_step. cbn [rbind gdf_rows crs].
  rewrite value_step. cbn [rbind].
  f_equal. f_equal.
  unfold dropna. rewrite filter_map_commute. repeat rewrite map_map.
  rewrite (filter_ext _ (fun ir => survives parse_datetime (snd ir))).
  - apply map_ext. intros [i r]. reflexivity.
  - intros [i r]. unfold survives. cbn.
    destruct (latitude r), (longitude r),
      (coerced parse_datetime (acq_date r)); reflexivity.
Qed.

End NormalizationFacts.

(** ** The index identifies the row of the feed *)

Lemma in_combine_seq {R : Type} (rows : list R) (start i : nat) (r : R) :
  In (i, r) (combine (seq start (List.length rows)) rows)
  <-> (start <= i)%nat /\ nth_error rows (i - start) = Some r.
Proof.
  revert start. induction rows as [|a rows IH]; intros start; simpl.
  - split; [tauto|]. intros [_ H]. destruct (i - start)%nat; discriminate.
  - rewrite IH. split.
    + intros [E | [Hle Hn]].
      * inversion E; subst. rewrite Nat.sub_diag. split; [lia | reflexivity].
      * split; [lia|]. replace (i - start)%nat with (S (i - S start)) by lia.
        exact Hn.
    + intros [Hle Hn]. destruct (Nat.eq_dec start i) as [E | N].
      * left. subst. rewrite Nat.sub_diag in Hn. simpl in Hn. congruence.
      * right. split; [lia|].
        replace (i - start)%nat with (S (i - S start)) in Hn by lia.
        exact Hn.
Qed.

Lemma in_range_index {R : Type} (rows : list R) (i : nat) (r : R) :
  In (i, r) (range_index rows) <-> nth_error rows i = Some r.
Proof.
  unfold range_index. rewrite in_combine_seq, Nat.sub_0_r.
  split; [tauto | intros H; split; [lia | exact H]].
Qed.

Lemma range_index_labels {R : Type} (rows : list R) :
  index (range_index rows) = seq 0 (List.length rows).
Proof.
  unfold index, range_index.
  generalize 0%nat. induction rows as [|a rows IH]; intros start; simpl.
  - reflexivity.
  - now rewrite IH.
Qed.

Section NormalizedTable.

Variable parse_datetime : string -> option Timestamp.

(** The rows of the normalized table are the surviving rows of the feed,
    each under its own index label. *)
Lemma in_normalized_table (rows : list RawRow) (gdf : FireTable)
    (i : nat) (r : FireRow) :
  load_firms_data parse_datetime (Ok rows) = Ok gdf ->
  In (i, r) (gdf_rows gdf)
  <-> exists raw, nth_error rows i = Some raw
                  /\ survives parse_datetime raw = true
                  /\ r = normalized parse_datetime raw.
Proof.
  rewrite load_firms_data_closed_form. intros H. inversion H; subst gdf.
  clear H. cbn [gdf_rows]. rewrite in_map_iff. split.
  - intros [[j raw] [E Hin]]. cbn [fst snd] in E. inversion E; subst.
    apply filter_In in Hin. destruct Hin as [Hin Hs].
    apply in_range_index in Hin. exists raw. auto.
  - intros [raw [Hn [Hs E]]]. exists (i, raw). subst r. split; [reflexivity|].
    apply filter_In. split; [now apply in_range_index | exact Hs].
Qed.

Lemma index_normalized_table (rows : list RawRow) (gdf : FireTable) (i : nat) :
  load_firms_data parse_datetime (Ok rows) = Ok gdf ->
  In i (index (gdf_rows gdf))
  <-> exists raw, nth_error rows i = Some raw
                  /\ survives parse_datetime raw = true.
Proof.
  intros H. unfold index. rewrite in_map_iff. split.
  - intros [[j r] [E Hin]]. cbn in E. subst j.
    apply (proj1 (in_normalized_table rows gdf i r H)) in Hin.
    destruct Hin as [raw [Hn [Hs _]]]. eauto.
  - intros [raw [Hn Hs]]. exists (i, normalized parse_datetime raw).
    split; [reflexivity|].
    apply (proj2 (in_normalized_table rows gdf i _ H)). eauto.
Qed.

Lemma survives_cells (raw : RawRow) :
  survives parse_datetime raw = true
  <-> latitude raw <> None /\ longitude raw <> None
      /\ exists s t, acq_date raw = Some s /\ parse_datetime s = Some t.
Proof.
  unfold survives, coerced.
  destruct (latitude raw), (longitude raw), (acq_date raw) as [s|]; cbn;
    try destruct (parse_datetime s) as [t|] eqn:P; cbn; split;
    try discriminate; try (intros (A & B & (s' & t' & C & D));
                           congruence).
  intros _. repeat split; try discriminate. eauto.
Qed.

End NormalizedTable.

Lemma column_range_index {R A : Type} (f : R -> A) (rows : list R) :
  column f (range_index rows) = map f rows.
Proof.
  unfold column, range_index.
  generalize 0%nat. induction rows as [|a rows IH]; intros start; simpl.
  - reflexivity.
  - now rewrite IH.
Qed.

(** ** Claims about [load_firms_data] *)

(** C1.  For every feed that was fetched, the date column is parsed
    without raising (an unparseable text becomes NaT) and the load returns a
    table; every row of the table has a latitude, a longitude and the
    timestamp parsed from the date text of the feed row with the same index;
    a feed row whose date text does not parse is marked NaT and its index
    is not in the table. *)
Theorem load_firms_data_rows_valid
    (parse_datetime : string -> option Timestamp) (rows : list RawRow) :
  exists dates gdf,
    to_datetime parse_datetime errors_coerce
      (column (@acq_date _ _ _) (range_index rows)) = Ok dates
    /\ load_firms_data parse_datetime (Ok rows) = Ok gdf
    /\ (forall i r, In (i, r) (gdf_rows gdf) ->
          latitude r <> None /\ longitude r <> None
          /\ exists raw s t,
               nth_error rows i = Some raw /\ acq_date raw = Some s
               /\ parse_datetime s = Some t /\ acq_date r = Some t)
    /\ (forall i raw s,
          nth_error rows i = Some raw -> acq_date raw = Some s ->
          parse_datetime s = None ->
          nth_error dates i = Some None /\ ~ In i (index (gdf_rows gdf))).
Proof.
  eexists. eexists. split; [apply to_datetime_coerce|].
  split; [apply load_firms_data_closed_form|].
  pose proof (load_firms_data_closed_form parse_datetime rows) as Hload.
  split.
  - intros i r Hin.
    apply (proj1 (in_normalized_table _ _ _ i r Hload)) in Hin.
    destruct Hin as (raw & Hn & Hs & ->).
    apply survives_cells in Hs. destruct Hs as (Hlat & Hlon & s & t & Hd & Hp).
    cbn. repeat split; try assumption.
    exists raw, s, t. repeat split; try assumption.
    rewrite Hd. exact Hp.
  - intros i raw s Hn Hd Hp. split.
    + rewrite column_range_index, map_map.
      rewrite nth_error_map, Hn. cbn. rewrite Hd. cbn. now rewrite Hp.
    + intros Hin. apply (proj1 (index_normalized_table _ _ _ i Hload)) in Hin.
      destruct Hin as (raw' & Hn' & Hs). rewrite Hn in Hn'.
      inversion Hn'; subst raw'. apply survives_cells in Hs.
      destruct Hs as (_ & _ & s' & t' & Hd' & Hp'). congruence.
Qed.

(** C3.  The load returns a table tagged EPSG:4326 in which the point of
    every row has the row's longitude as x and its latitude as y, both
    taken from the feed row with the same index. *)
Theorem load_firms_data_geometry
    (parse_datetime : string -> option Timestamp) (rows : list RawRow) :
  exists gdf,
    load_firms_data parse_datetime (Ok rows) = Ok gdf
    /\ crs gdf = "EPSG:4326"
    /\ forall i r, In (i, r) (gdf_rows gdf) ->
         x (geometry r) = longitude r /\ y (geometry r) = latitude r
         /\ geometry r = mkPoint (longitude r) (latitude r)
         /\ exists raw, nth_error rows i = Some raw
                        /\ longitude r = longitude raw
                        /\ latitude r = latitude raw.
Proof.
  pose proof (load_firms_data_closed_form parse_datetime rows) as Hload.
  eexists. split; [exact Hload|]. split; [reflexivity|].
  intros i r Hin. apply (proj1 (in_normalized_table _ _ _ i r Hload)) in Hin.
  destruct Hin as (raw & Hn & _ & ->). cbn.
  repeat split. exists raw. auto.
Qed.

(** C6.  In the table the load returns, the [value] cell of every row is
    the row's [brightness] cell, which is the brightness of the feed row
    with the same index; so [value] is present whenever [brightness] is. *)
Theorem load_firms_data_value
    (parse_datetime : string -> option Timestamp) (rows : list RawRow) :
  exists gdf,
    load_firms_data parse_datetime (Ok rows) = Ok gdf
    /\ forall i r, In (i, r) (gdf_rows gdf) ->
         value r = brightness r
         /\ (brightness r <> None -> value r <> None)
         /\ exists raw, nth_error rows i = Some raw
                        /\ brightness r = brightness raw.
Proof.
  pose proof (load_firms_data_closed_form parse_datetime rows) as Hload.
  eexists. split; [exact Hload|].
  intros i r Hin. apply (proj1 (in_normalized_table _ _ _ i r Hload)) in Hin.
  destruct Hin as (raw & Hn & _ & ->). cbn.
  repeat split; [tauto | exists raw; auto].
Qed.

(** ** Filtering by date *)

Lemma Date_eqb_eq (a b : Date) : Date_eqb a b = true <-> a = b.
Proof.
  destruct a as [ya ma da], b as [yb mb db]. unfold Date_eqb. cbn.
  rewrite !andb_true_iff, !Z.eqb_eq. split.
  - intros [[-> ->] ->]. reflexivity.
  - intros E. inversion E. auto.
Qed.

Lemma acquired_on_spec (d : Date) (r : FireRow) :
  acquired_on d r = true <-> exists t, acq_date r = Some t /\ ts_date t = d.
Proof.
  unfold acquired_on. destruct (acq_date r) as [t|]; cbn.
  - rewrite Date_eqb_eq. split.
    + intros E. exists t. auto.
    + intros [t' [E1 E2]]. inversion E1; subst. reflexivity.
  - split; [discriminate | intros [t [E _]]; discriminate].
Qed.

(** A mask computed row by row selects like [filter]. *)
Lemma select_derived {R : Type} (p : R -> bool) (df : list (nat * R)) :
  select df (map (fun ir => p (snd ir)) df) = filter (fun ir => p (snd ir)) df.
Proof.
  unfold select. induction df as [|ir df IH]; cbn; [reflexivity|].
  destruct (p (snd ir)); cbn; now rewrite IH.
Qed.

Lemma filter_by_date_rows (T : FireTable) (d : Date) :
  gdf_rows (filter_by_date T d)
  = filter (fun ir => acquired_on d (snd ir)) (gdf_rows T).
Proof.
  unfold filter_by_date, dt_date, column. cbn [gdf_rows].
  rewrite !map_map. apply (select_derived (acquired_on d)).
Qed.

(** C2.  The rows of the filtered table are rows of the table, in the
    table's order; each has a timestamp whose calendar date is the target
    date; a row of the table acquired on the target date is returned
    whatever its time of day; and when no row of the table was acquired on
    the target date the filtered table has no rows. *)
Theorem filter_by_date_projection (T : FireTable) (d : Date) :
  gdf_rows (filter_by_date T d)
  = filter (fun ir => acquired_on d (snd ir)) (gdf_rows T)
  /\ incl (gdf_rows (filter_by_date T d)) (gdf_rows T)
  /\ (forall ir, In ir (gdf_rows (filter_by_date T d)) ->
        exists t, acq_date (snd ir) = Some t /\ ts_date t = d)
  /\ (forall ir seconds,
        In ir (gdf_rows T) ->
        acq_date (snd ir) = Some (mkTimestamp d seconds) ->
        In ir (gdf_rows (filter_by_date T d)))
  /\ ((forall ir, In ir (gdf_rows T) ->
         option_map ts_date (acq_date (snd ir)) <> Some d) ->
      gdf_rows (filter_by_date T d) = [])
  /\ crs (filter_by_date T d) = crs T.
Proof.
  rewrite filter_by_date_rows. split; [reflexivity|].
  split; [apply incl_filter|]. split; [|split; [|split]].
  - intros ir Hin. apply filter_In in Hin. destruct Hin as [_ H].
    now apply acquired_on_spec.
  - intros ir seconds Hin Hd. apply filter_In. split; [exact Hin|].
    apply acquired_on_spec. eexists. split; [exact Hd | reflexivity].
  - intros Hnone.
    destruct (filter (fun ir => acquired_on d (snd ir)) (gdf_rows T))
      as [|ir rest] eqn:E; [reflexivity|].
    assert (Hin : In ir (filter (fun ir => acquired_on d (snd ir))
                           (gdf_rows T))) by (rewrite E; now left).
    apply filter_In in Hin. destruct Hin as [Hin H].
    apply acquired_on_spec in H. destruct H as [t [Ht Hd]].
    exfalso. apply (Hnone ir Hin). rewrite Ht. cbn. now rewrite Hd.
  - reflexivity.
Qed.

(** ** The cache and repeated loads *)

Lemma filter_keeps_all {A : Type} (p : A -> bool) (l : list A) :
  (forall a, In a l -> p a = true) -> filter p l = l.
Proof.
  induction l as [|a l IH]; intros H; cbn; [reflexivity|].
  rewrite (H a (or_introl eq_refl)). f_equal.
  apply IH. intros b Hb. apply H. now right.
Qed.

Lemma dropna_normalized (parse_datetime : string -> option Timestamp)
    (rows : list (nat * RawRow)) :
  dropna required_cells
    (map (fun ir => (fst ir, normalized parse_datetime (snd ir)))
         (filter (fun ir => survives parse_datetime (snd ir)) rows))
  = map (fun ir => (fst ir, normalized parse_datetime (snd ir)))
        (filter (fun ir => survives parse_datetime (snd ir)) rows).
Proof.
  unfold dropna. rewrite filter_map_commute. f_equal.
  apply filter_keeps_all. intros [i r] Hin.
  apply filter_In in Hin. destruct Hin as [_ Hs]. cbn [snd] in Hs |- *.
  unfold survives in Hs. cbn.
  destruct (latitude r), (longitude r),
    (coerced parse_datetime (acq_date r)); cbn in Hs |- *; congruence.
Qed.

Lemma coerced_agree (p q : string -> option Timestamp) (r : RawRow) :
  (forall s, acq_date r = Some s -> p s = q s) ->
  coerced p (acq_date r) = coerced q (acq_date r).
Proof.
  intros H. unfold coerced. destruct (acq_date r) as [s|]; [|reflexivity].
  now apply H.
Qed.

(** The table depends on the parser only through the date texts of the
    feed. *)
Lemma normalized_rows_agree (p q : string -> option Timestamp)
    (rows : list (nat * RawRow)) :
  (forall ir s, In ir rows -> acq_date (snd ir) = Some s -> p s = q s) ->
  map (fun ir => (fst ir, normalized p (snd ir)))
      (filter (fun ir => survives p (snd ir)) rows)
  = map (fun ir => (fst ir, normalized q (snd ir)))
        (filter (fun ir => survives q (snd ir)) rows).
Proof.
  induction rows as [|[i r] rows IH]; intros H; cbn [filter map];
    [reflexivity|].
  assert (Hr : coerced p (acq_date r) = coerced q (acq_date r)).
  { apply coerced_agree. intros s. apply (H (i, r)). now left. }
  assert (Hrest : map (fun ir => (fst ir, normalized p (snd ir)))
                    (filter (fun ir => survives p (snd ir)) rows)
                  = map (fun ir => (fst ir, normalized q (snd ir)))
                      (filter (fun ir => survives q (snd ir)) rows)).
  { apply IH. intros ir s Hin. apply H. now right. }
  assert (Hs : survives p r = survives q r)
    by (unfold survives; now rewrite Hr).
  assert (Hn : normalized p r = normalized q r)
    by (unfold normalized; now rewrite Hr).
  cbn [snd]. rewrite Hs. destruct (survives q r); cbn [map fst snd].
  - now rewrite Hrest, Hn.
  - exact Hrest.
Qed.

(** C5, as the code has it.  [to_datetime] reads a date text at the time
    of the call.  Two loads of the same feed content, at the times [c1] and
    [c2], return identical tables (same rows, same fields, same
    geometries) provided every date text of the feed is read the same at
    both times; a second run then returns the table of the first whether
    it is served from the cache or loads again. *)
Theorem load_firms_data_same_content_same_table
    (Clock : Type) (parse_at : Clock -> string -> option Timestamp)
    (rows : list RawRow) (c1 c2 : Clock) (t1 t2 : Z) :
  (forall r s, In r rows -> acq_date r = Some s ->
               parse_at c1 s = parse_at c2 s) ->
  load_firms_data (parse_at c1) (Ok rows)
  = load_firms_data (parse_at c2) (Ok rows)
  /\ fst (cache_data 3600 (load_firms_data (parse_at c2) (Ok rows))
            (snd (cache_data 3600 (load_firms_data (parse_at c1) (Ok rows))
                    None t1))
            t2)
     = fst (cache_data 3600 (load_firms_data (parse_at c1) (Ok rows))
              None t1).
Proof.
  intros Hsame.
  assert (Hload : load_firms_data (parse_at c1) (Ok rows)
                  = load_firms_data (parse_at c2) (Ok rows)).
  { rewrite !load_firms_data_closed_form. do 2 f_equal.
    apply normalized_rows_agree. intros [i r] s Hin. cbn [snd].
    apply Hsame. apply in_range_index in Hin. eapply nth_error_In.
    exact Hin. }
  split; [exact Hload|].
  rewrite <- Hload. rewrite load_firms_data_closed_form.
  unfold cache_data. cbn [fst snd cached_at cached_value].
  destruct (t2 <? t1 + 3600); reflexivity.
Qed.

Lemma load_firms_data_same_content_same_table_sample :
  load_firms_data (parse_on may_1) (Ok sample_feed)
  = load_firms_data (parse_on may_2) (Ok sample_feed).
Proof.
  apply (load_firms_data_same_content_same_table Date parse_on sample_feed
           may_1 may_2 0 7200).
  intros r s Hin Hs. cbn in Hin.
  destruct Hin as [<- | [<- | [<- | [<- | [<- | []]]]]];
    cbn in Hs; inversion Hs; reflexivity.
Defined.

(** C5 as stated fails: the feed whose row is dated by the word today is
    the same content on both days, and its table holds the day of the
    load. *)
Lemma load_firms_data_of_a_relative_date :
  load_firms_data (parse_on may_1) (Ok feed_dated_today)
  <> load_firms_data (parse_on may_2) (Ok feed_dated_today).
Proof.
  intros H. vm_compute in H. discriminate H.
Qed.

(** ** Hour buckets *)

Lemma size_at_below (k : Z) (sizes : list (Z * nat)) :
  Forall (fun e => k < fst e) sizes -> size_at k sizes = 0%nat.
Proof.
  induction 1 as [|[k' n] rest Hlt _ IH]; cbn; [reflexivity|].
  cbn in Hlt. destruct (Z.eqb_spec k k'); [lia | exact IH].
Qed.

Lemma bump_sorted (k : Z) (sizes : list (Z * nat)) :
  StronglySorted key_lt sizes -> StronglySorted key_lt (bump k sizes).
Proof.
  induction 1 as [|[k' n] rest Hs IH Hall]; cbn.
  - repeat constructor.
  - destruct (Z.ltb_spec k k') as [Hlt | Hge].
    + constructor; [constructor; assumption|].
      constructor; [exact Hlt|].
      eapply Forall_impl; [|exact Hall]. unfold key_lt. cbn. intros e He. lia.
    + destruct (Z.eqb_spec k k') as [-> | Hne].
      * constructor; assumption.
      * constructor; [exact IH|].
        assert (Hin : forall e, In e (bump k rest) -> e = (k, 1%nat)
                                                     \/ fst e = k
                                                     \/ In e rest).
        { clear. induction rest as [|[k0 n0] rest IH]; cbn.
          - intros e [<- | []]. now left.
          - intros e. destruct (k <? k0).
            + intros [<- | H]; [now left | now right; right].
            + destruct (Z.eqb_spec k k0) as [-> | _].
              * intros [<- | H]; [right; left; reflexivity
                                 | right; right; now right].
              * intros [<- | H]; [right; right; now left|].
                destruct (IH e H) as [E | [E | E]]; auto. }
        apply Forall_forall. intros e He. unfold key_lt. cbn.
        destruct (Hin e He) as [-> | [E | E]]; cbn; try lia.
        rewrite Forall_forall in Hall. apply (Hall e E).
Qed.

Lemma size_at_bump (h k : Z) (sizes : list (Z * nat)) :
  StronglySorted key_lt sizes ->
  size_at h (bump k sizes)
  = (size_at h sizes + (if Z.eqb h k then 1 else 0))%nat.
Proof.
  induction 1 as [|[k' n] rest Hs IH Hall]; cbn.
  - destruct (h =? k); reflexivity.
  - destruct (Z.ltb_spec k k') as [Hlt | Hge].
    + cbn. destruct (Z.eqb_spec h k) as [-> | Hne].
      * destruct (Z.eqb_spec k k'); [lia|].
        rewrite size_at_below; [reflexivity|].
        eapply Forall_impl; [|exact Hall]. unfold key_lt. cbn. intros e He. lia.
      * lia.
    + destruct (Z.eqb_spec k k') as [-> | Hne]; cbn.
      * destruct (Z.eqb_spec h k'); lia.
      * destruct (Z.eqb_spec h k') as [-> | Hhk].
        -- destruct (Z.eqb_spec k' k); lia.
        -- exact IH.
Qed.

Lemma size_at_fold_bump (h : Z) (keys : list Z) (sizes : list (Z * nat)) :
  StronglySorted key_lt sizes ->
  StronglySorted key_lt (fold_left (fun s k => bump k s) keys sizes)
  /\ size_at h (fold_left (fun s k => bump k s) keys sizes)
     = (size_at h sizes + List.length (filter (Z.eqb h) keys))%nat.
Proof.
  revert sizes. induction keys as [|k keys IH]; intros sizes Hs; cbn.
  - split; [exact Hs | lia].
  - destruct (IH (bump k sizes) (bump_sorted k sizes Hs)) as [Hs' Hn].
    split; [exact Hs'|]. rewrite Hn, size_at_bump by exact Hs.
    destruct (h =? k); cbn; lia.
Qed.

Lemma fold_count_key (keys : list (option Z)) (sizes : list (Z * nat)) :
  fold_left count_key keys sizes
  = fold_left (fun s k => bump k s) (present keys) sizes.
Proof.
  revert sizes. induction keys as [|[k|] keys IH]; intros sizes; cbn;
    [reflexivity | apply IH | apply IH].
Qed.

Lemma present_floordiv (col : list (option Z)) (d : Z) :
  present (floordiv col d) = map (fun t => t / d) (present col).
Proof.
  unfold floordiv.
  induction col as [|[t|] col IH]; cbn; [reflexivity | now rewrite IH | exact IH].
Qed.

Lemma hourly_present (filtered : list (nat * FireRow)) :
  hourly filtered
  = fold_left (fun s k => bump k s)
      (map (fun t => t / 100) (present (column (@acq_time _ _ _) filtered)))
      [].
Proof.
  unfold hourly, groupby_size. now rewrite fold_count_key, present_floordiv.
Qed.

Lemma present_in_hour (filtered : list (nat * FireRow)) (h : Z) :
  List.length
    (filter (Z.eqb h)
       (map (fun t => t / 100) (present (column (@acq_time _ _ _) filtered))))
  = List.length (filter (fun ir => acquired_in_hour h (snd ir)) filtered).
Proof.
  unfold column, acquired_in_hour.
  induction filtered as [|[i r] rest IH]; cbn; [reflexivity|].
  destruct (acq_time r) as [t|]; cbn; [|exact IH].
  rewrite (Z.eqb_sym h). destruct (t / 100 =? h); cbn; now rewrite IH.
Qed.

Lemma size_at_hourly (filtered : list (nat * FireRow)) (h : Z) :
  size_at h (hourly filtered)
  = List.length (filter (fun ir => acquired_in_hour h (snd ir)) filtered).
Proof.
  rewrite hourly_present.
  destruct (size_at_fold_bump h
              (map (fun t => t / 100)
                   (present (column (@acq_time _ _ _) filtered)))
              [] (SSorted_nil _)) as [_ ->].
  cbn [size_at Nat.add]. apply present_in_hour.
Qed.

(** C7.  The hour bucket of an acquisition time is its floor division by
    100: 1345 falls in bucket 13 and 59 in bucket 0; for a time between 0
    and 2359 the bucket is an hour between 0 and 23 and the time lies in
    the hundred starting at 100 times the bucket; and the hourly series
    counts under each bucket the rows whose time falls in it.  A row
    without acquisition time has no bucket and is not counted. *)
Theorem hourly_buckets_by_floor_division :
  floordiv [Some 1345; Some 59] 100 = [Some 13; Some 0]
  /\ (forall t, 0 <= t <= 2359 ->
        floordiv [Some t] 100 = [Some (t / 100)]
        /\ 0 <= t / 100 <= 23
        /\ 100 * (t / 100) <= t < 100 * (t / 100) + 100)
  /\ (forall (filtered : list (nat * FireRow)) (h : Z),
        size_at h (hourly filtered)
        = List.length
            (filter (fun ir => match acq_time (snd ir) with
                               | Some t => t / 100 =? h
                               | None => false
                               end) filtered))
  /\ (forall (i : nat) (r : FireRow) (t : Z),
        acq_time r = Some t -> hourly [(i, r)] = [(t / 100, 1%nat)])
  /\ (forall (i : nat) (r : FireRow),
        acq_time r = None -> hourly [(i, r)] = []).
Proof.
  split; [reflexivity|]. split; [|split; [|split]].
  - intros t Ht. split; [reflexivity|].
    pose proof (Z.div_mod t 100 ltac:(lia)) as Hdm.
    pose proof (Z.mod_pos_bound t 100 ltac:(lia)) as Hm.
    split; [|lia].
    split; [apply Z.div_pos; lia|].
    apply Z.lt_succ_r. apply Z.div_lt_upper_bound; lia.
  - apply size_at_hourly.
  - intros i r t Ht. unfold hourly, column, floordiv. cbn. rewrite Ht.
    reflexivity.
  - intros i r Ht. unfold hourly, column, floordiv. cbn. rewrite Ht.
    reflexivity.
Qed.

(** ** The run of the page *)

Lemma unique_from_Forall (P : option Date -> Prop) (col seen : list (option Date)) :
  Forall P col -> Forall P (unique_from seen col).
Proof.
  intros H. revert seen. induction H as [|c rest Hc _ IH]; intros seen; cbn.
  - constructor.
  - destruct (existsb (opt_Date_eqb c) seen); [apply IH|].
    constructor; [exact Hc | apply IH].
Qed.

Lemma all_dates_present (col : list (option Date)) :
  Forall (fun c => c <> None) col -> exists ds, all_dates col = Some ds.
Proof.
  induction 1 as [|c rest Hc _ [ds IH]]; cbn.
  - eauto.
  - destruct c as [d|]; [|congruence]. rewrite IH. cbn. eauto.
Qed.

(** On a table without NaT that has a row, the default date exists. *)
Lemma py_max_available_dates (rows : list (nat * FireRow)) :
  rows <> [] ->
  (forall ir, In ir rows -> acq_date (snd ir) <> None) ->
  exists d, py_max (unique (dt_date (column (@acq_date _ _ _) rows))) = Ok d.
Proof.
  intros Hne Hdates.
  assert (Hall : Forall (fun c : option Date => c <> None)
                   (dt_date (column (@acq_date _ _ _) rows))).
  { unfold dt_date, column. rewrite map_map. apply Forall_forall.
    intros c Hc. apply in_map_iff in Hc. destruct Hc as [ir [<- Hin]].
    specialize (Hdates ir Hin). destruct (acq_date (snd ir)); cbn; congruence. }
  destruct rows as [|ir rows]; [congruence|].
  unfold unique. cbn in Hall |- *.
  inversion Hall as [|c rest Hc Hrest]; subst.
  destruct (option_map ts_date (acq_date (snd ir))) as [d|] eqn:E;
    [|congruence].
  cbn.
  destruct (all_dates_present _ (unique_from_Forall _ _ [Some d] Hrest))
    as [ds ->].
  cbn. eauto.
Qed.

Section PageFacts.

Variable to_csv : bool -> list (nat * FireRow) -> string.

(** The export section in closed form. *)
Lemma export_section_run (filtered : list (nat * FireRow))
    (out : list Element) :
  export_section to_csv filtered out
  = (Ok tt,
     out ++ [ Markdown "### 💾 Export Filtered Data";
              if empty filtered
              then Warning "No fire data available for selected date."
              else DownloadButton "⬇️ Download CSV" (to_csv false filtered)
                     "filtered_fires.csv" ]).
Proof.
  unfold export_section, sbind, emit.
  destruct filtered; cbn; rewrite <- app_assoc; reflexivity.
Qed.

(** With no row in the table the run stops at [max(available_dates)]. *)
Lemma page_raises_on_empty_table (gdf : FireTable) (ui : Sidebar) :
  gdf_rows gdf = [] ->
  page to_csv (Ok gdf) ui []
  = (Raise (ValueError "max() arg is an empty sequence"),
     [Header "📍 Filters"]).
Proof.
  intros E. unfold page, sbind, lift, emit. rewrite E. reflexivity.
Qed.

Lemma existsb_over_map {A B : Type} (f : A -> B) (p : B -> bool)
    (l : list A) :
  existsb p (map f l) = existsb (fun a => p (f a)) l.
Proof.
  induction l as [|a l IH]; cbn; [reflexivity | now rewrite IH].
Qed.

Lemma add_markers_run (rows : list (nat * FireRow)) (m : LeafMap) :
  add_markers m rows
  = if existsb (fun ir => nowhere (snd ir)) rows
    then Raise (ValueError "Location values cannot contain NaNs.")
    else Ok (mkLeafMap (center m) (zoom m) (height m) (basemap m) (heatmap m)
               (markers m ++ map (fun ir => marker_of (snd ir)) rows)).
Proof.
  revert m. induction rows as [|[i r] rows IH]; intros m; cbn [add_markers].
  - cbn. rewrite app_nil_r. destruct m; reflexivity.
  - unfold add_marker. cbn [marker_of marker_location fst snd existsb].
    fold (nowhere r). destruct (nowhere r); cbn [rbind orb]; [reflexivity|].
    rewrite IH. cbn [center zoom height basemap heatmap markers].
    destruct (existsb _ rows); [reflexivity|].
    cbn [map snd]. now rewrite <- app_assoc.
Qed.

(** The map is built unless [map_failure] names an exception. *)
Lemma build_map_run (filtered : list (nat * FireRow))
    (selected_basemap : string) (show_hotspots : bool) :
  build_map filtered selected_basemap show_hotspots
  = match map_failure filtered show_hotspots with
    | Some e => Raise e
    | None => Ok (rendered_map filtered selected_basemap show_hotspots)
    end.
Proof.
  unfold build_map, map_failure, rendered_map.
  destruct filtered as [|ir rest]; [destruct show_hotspots; reflexivity|].
  cbn [empty negb andb]. set (rows := ir :: rest).
  destruct show_hotspots; cbn [andb].
  - unfold add_heatmap. rewrite !existsb_over_map. cbn [fst snd].
    change (fun x : nat * FireRow =>
              isna (latitude (snd x)) || isna (longitude (snd x)))
      with (fun ir : nat * FireRow => nowhere (snd ir)).
    destruct (existsb (fun ir => nowhere (snd ir)) rows) eqn:Hloc;
      [reflexivity|].
    destruct (existsb (fun x => isna (value (snd x))) rows); [reflexivity|].
    cbn [rbind]. rewrite add_markers_run, Hloc. reflexivity.
  - cbn [rbind]. rewrite add_markers_run.
    destruct (existsb _ rows); reflexivity.
Qed.

(** A run of the page: it stops at the load, or at the default date, or
    while the map is built, or renders [finished_page]. *)
Lemma page_run (loaded : Result FireTable) (ui : Sidebar) :
  page to_csv loaded ui []
  = match loaded with
    | Raise e => (Raise e, [])
    | Ok gdf =>
        match py_max (unique (dt_date (column (@acq_date _ _ _)
                                         (gdf_rows gdf)))) with
        | Raise e => (Raise e, [Header "📍 Filters"])
        | Ok default =>
            let filtered :=
              filter_by_date gdf (date_input (ui_date ui) default) in
            match map_failure (gdf_rows filtered) (ui_hotspots ui) with
            | Some e => (Raise e, page_head)
            | None =>
                (Ok filtered,
                 finished_page to_csv (gdf_rows filtered)
                   (basemap_dict (ui_basemap ui)) (ui_hotspots ui))
            end
        end
    end.
Proof.
  destruct loaded as [gdf|e]; [|reflexivity].
  unfold page, sbind, lift. cbn [emit app].
  destruct (py_max _) as [default|e]; [|reflexivity].
  cbv zeta.
  set (filtered := filter_by_date gdf (date_input (ui_date ui) default)).
  unfold map_section, sbind, lift. rewrite build_map_run.
  destruct (map_failure (gdf_rows filtered) (ui_hotspots ui)) as [e|];
    [reflexivity|].
  unfold kpi_section, pie_section, charts_section,
    export_section, when, sbind, emit, sret, finished_page.
  destruct (gdf_rows filtered) as [|ir rest]; reflexivity.
Qed.

(** What a run of the page that reached its end has rendered. *)
Lemma page_finished (loaded : Result FireTable) (ui : Sidebar)
    (filtered : FireTable) (els : list Element) :
  page to_csv loaded ui [] = (Ok filtered, els) ->
  map_failure (gdf_rows filtered) (ui_hotspots ui) = None
  /\ els = finished_page to_csv (gdf_rows filtered)
             (basemap_dict (ui_basemap ui)) (ui_hotspots ui).
Proof.
  rewrite page_run. destruct loaded as [gdf|e]; [|discriminate].
  destruct (py_max _) as [default|e]; [|discriminate].
  cbv zeta.
  destruct (map_failure _ _) as [e|] eqn:E; [discriminate|].
  intros H. split; [|congruence].
  replace filtered
    with (filter_by_date gdf (date_input (ui_date ui) default))
    by congruence.
  exact E.
Qed.

(** The only download button a finished run puts on the page is the one
    of the export section. *)
Lemma page_download_buttons (loaded : Result FireTable) (ui : Sidebar)
    (filtered : FireTable) (els : list Element) :
  page to_csv loaded ui [] = (Ok filtered, els) ->
  filter is_download_button els
  = if empty (gdf_rows filtered) then []
    else [ DownloadButton "⬇️ Download CSV"
             (to_csv false (gdf_rows filtered)) "filtered_fires.csv" ].
Proof.
  intros H. apply page_finished in H. destruct H as [_ ->].
  unfold finished_page. destruct (gdf_rows filtered); reflexivity.
Qed.

End PageFacts.

Lemma filter_drops_all {A : Type} (p : A -> bool) (l : list A) :
  (forall a, In a l -> p a = false) -> filter p l = [].
Proof.
  induction l as [|a l IH]; intros H; cbn; [reflexivity|].
  rewrite (H a (or_introl eq_refl)). apply IH. intros b Hb. apply H. now right.
Qed.

(** ** Claims about the page *)

(** C4.  On the feed whose only row has no latitude the load returns the
    empty table tagged EPSG:4326, and the run of the script then raises
    [ValueError] at [max(available_dates)], after the sidebar header and
    before any other element is rendered; a failed fetch aborts the run in
    the same way, with its own exception. *)
Theorem app_raises_without_valid_rows
    (parse_datetime : string -> option Timestamp)
    (to_csv : bool -> list (nat * FireRow) -> string)
    (now : Z) (ui : Sidebar) :
  load_firms_data parse_datetime (Ok feed_without_valid_rows)
  = Ok (mkGeoDataFrame [] "EPSG:4326")
  /\ app parse_datetime to_csv (Ok feed_without_valid_rows) None now ui
     = (Raise (ValueError "max() arg is an empty sequence"),
        [Header "📍 Filters"],
        Some (mkCacheEntry (mkGeoDataFrame [] "EPSG:4326") now))
  /\ app parse_datetime to_csv (Raise (FetchError FIRMS_URL)) None now ui
     = (Raise (FetchError FIRMS_URL), [], None).
Proof.
  unfold app, cache_data. rewrite load_firms_data_closed_form.
  split; [|split]; reflexivity.
Qed.

(** Whenever no row of the feed survives, the run raises. *)
Theorem app_raises_when_no_row_survives
    (parse_datetime : string -> option Timestamp)
    (to_csv : bool -> list (nat * FireRow) -> string)
    (rows : list RawRow) (now : Z) (ui : Sidebar) :
  (forall r, In r rows -> survives parse_datetime r = false) ->
  fst (app parse_datetime to_csv (Ok rows) None now ui)
  = (Raise (ValueError "max() arg is an empty sequence"),
     [Header "📍 Filters"]).
Proof.
  intros Hnone. unfold app, cache_data.
  rewrite load_firms_data_closed_form. cbn [fst].
  apply page_raises_on_empty_table. cbn [gdf_rows].
  rewrite filter_drops_all; [reflexivity|]. intros [i r] Hin. cbn [snd].
  apply Hnone. apply in_range_index in Hin. eapply nth_error_In. exact Hin.
Qed.

(** C9.  The export section never raises.  On an empty row set it renders
    the section title and a warning, and no download button; on a
    non-empty row set it renders the title and one download button whose
    data is the CSV text of exactly these rows, written without the index,
    and whose file name is filtered_fires.csv.  On the page of a finished
    run there is no other download button. *)
Theorem export_offers_csv_of_filtered_rows
    (to_csv : bool -> list (nat * FireRow) -> string) :
  (forall out,
     export_section to_csv [] out
     = (Ok tt,
        out ++ [ Markdown "### 💾 Export Filtered Data";
                 Warning "No fire data available for selected date." ]))
  /\ (forall ir rest out,
        export_section to_csv (ir :: rest) out
        = (Ok tt,
           out ++ [ Markdown "### 💾 Export Filtered Data";
                    DownloadButton "⬇️ Download CSV"
                      (to_csv false (ir :: rest)) "filtered_fires.csv" ]))
  /\ (forall loaded ui filtered els,
        page to_csv loaded ui [] = (Ok filtered, els) ->
        filter is_download_button els
        = if empty (gdf_rows filtered) then []
          else [ DownloadButton "⬇️ Download CSV"
                   (to_csv false (gdf_rows filtered)) "filtered_fires.csv" ]).
Proof.
  split; [|split].
  - intros out. apply export_section_run.
  - intros ir rest out. apply export_section_run.
  - apply page_download_buttons.
Qed.

(** C10.  A run of the script with other province and city selections,
    everything else equal, has the same outcome: the same filtered table
    (or the same exception), the same page and the same cache. *)
Theorem app_ignores_province_and_city
    (parse_datetime : string -> option Timestamp)
    (to_csv : bool -> list (nat * FireRow) -> string)
    (fetched : Result (list RawRow)) (cache : option CacheEntry) (now : Z)
    (ui : Sidebar) (p : Province) (c : City) :
  app parse_datetime to_csv fetched cache now (select_region p c ui)
  = app parse_datetime to_csv fetched cache now ui.
Proof.
  unfold app. destruct (cache_data _ _ _ _) as [gdf cache']. f_equal.
Qed.

(** ** Satellite shares *)

Lemma tallied_tally (s k : string) (counts : list (string * nat)) :
  tallied s (tally k counts)
  = (tallied s counts + (if String.eqb s k then 1 else 0))%nat.
Proof.
  induction counts as [|[k' n] rest IH]; cbn.
  - destruct (String.eqb s k); reflexivity.
  - destruct (String.eqb_spec k k') as [-> | Hkk']; cbn.
    + destruct (String.eqb_spec s k'); lia.
    + destruct (String.eqb_spec s k') as [-> | Hsk'].
      * destruct (String.eqb_spec k' k); [congruence | lia].
      * exact IH.
Qed.

Lemma keys_tally (s k : string) (counts : list (string * nat)) :
  In s (map fst (tally k counts)) <-> s = k \/ In s (map fst counts).
Proof.
  induction counts as [|[k' n] rest IH]; cbn.
  - intuition congruence.
  - destruct (String.eqb_spec k k') as [-> | Hkk']; cbn.
    + intuition congruence.
    + rewrite IH. intuition congruence.
Qed.

Lemma NoDup_keys_tally (k : string) (counts : list (string * nat)) :
  NoDup (map fst counts) -> NoDup (map fst (tally k counts)).
Proof.
  induction counts as [|[k' n] rest IH]; cbn; intros H.
  - repeat constructor. intros [].
  - inversion H as [|? ? Hnotin Hrest]; subst.
    destruct (String.eqb_spec k k') as [-> | Hkk']; cbn.
    + constructor; assumption.
    + constructor; [|apply IH; exact Hrest].
      rewrite keys_tally. intros [E | Hin]; [congruence | contradiction].
Qed.

Lemma positive_tally (k : string) (counts : list (string * nat)) :
  Forall (fun e => (0 < snd e)%nat) counts ->
  Forall (fun e => (0 < snd e)%nat) (tally k counts).
Proof.
  induction 1 as [|[k' n] rest Hn Hrest IH]; cbn.
  - repeat constructor.
  - cbn in Hn.
    destruct (String.eqb k k'); constructor; cbn; try assumption; lia.
Qed.

Lemma total_tally (k : string) (counts : list (string * nat)) :
  total (tally k counts) = S (total counts).
Proof.
  induction counts as [|[k' n] rest IH]; cbn; [reflexivity|].
  destruct (String.eqb k k'); cbn; [reflexivity|].
  fold (total (tally k rest)). fold (total rest). rewrite IH. lia.
Qed.

Lemma tallied_of_entry (s : string) (n : nat) (counts : list (string * nat)) :
  NoDup (map fst counts) -> In (s, n) counts -> tallied s counts = n.
Proof.
  induction counts as [|[k' m] rest IH]; cbn; intros Hnd Hin; [contradiction|].
  inversion Hnd as [|? ? Hnotin Hrest]; subst.
  destruct Hin as [E | Hin].
  - inversion E; subst. now rewrite String.eqb_refl.
  - destruct (String.eqb_spec s k') as [-> | _]; [|now apply IH].
    exfalso. apply Hnotin. apply in_map_iff. exists (k', n). auto.
Qed.

Lemma entry_of_tallied (s : string) (counts : list (string * nat)) :
  (0 < tallied s counts)%nat -> In (s, tallied s counts) counts.
Proof.
  induction counts as [|[k' m] rest IH]; cbn; intros H; [lia|].
  destruct (String.eqb_spec s k') as [-> | _]; [now left | right; auto].
Qed.

(** What the tally holds after a pass over a column. *)
Lemma tally_column (col : list (option string)) (acc : list (string * nat)) :
  NoDup (map fst acc) -> Forall (fun e => (0 < snd e)%nat) acc ->
  NoDup (map fst (fold_left tally_cell col acc))
  /\ Forall (fun e => (0 < snd e)%nat) (fold_left tally_cell col acc)
  /\ total (fold_left tally_cell col acc)
     = (total acc + count_identified col)%nat
  /\ forall s, tallied s (fold_left tally_cell col acc)
               = (tallied s acc + count_carrying s col)%nat.
Proof.
  revert acc. induction col as [|c col IH]; intros acc Hnd Hpos.
  - cbn. unfold count_identified, count_carrying. cbn.
    repeat split; auto.
  - cbn [fold_left]. destruct c as [k|]; cbn [tally_cell].
    + destruct (IH (tally k acc) (NoDup_keys_tally k acc Hnd)
                  (positive_tally k acc Hpos)) as (H1 & H2 & H3 & H4).
      split; [exact H1|]. split; [exact H2|]. split.
      * rewrite H3, total_tally. unfold count_identified. cbn. lia.
      * intros s. rewrite H4, tallied_tally. unfold count_carrying. cbn.
        destruct (String.eqb s k); cbn; lia.
    + destruct (IH acc Hnd Hpos) as (H1 & H2 & H3 & H4).
      split; [exact H1|]. split; [exact H2|]. split; [exact H3 | exact H4].
Qed.

Lemma insert_desc_perm (e : string * nat) (sorted : list (string * nat)) :
  Permutation (insert_desc e sorted) (e :: sorted).
Proof.
  induction sorted as [|e' rest IH]; cbn [insert_desc]; [reflexivity|].
  destruct (Nat.leb (snd e') (snd e)); [reflexivity|].
  rewrite IH. apply perm_swap.
Qed.

Lemma sort_desc_perm (counts : list (string * nat)) :
  Permutation (sort_desc counts) counts.
Proof.
  induction counts as [|e rest IH]; cbn [sort_desc fold_right];
    [reflexivity|].
  rewrite insert_desc_perm. constructor. exact IH.
Qed.

Lemma total_perm (a b : list (string * nat)) :
  Permutation a b -> total a = total b.
Proof.
  induction 1; cbn; try lia.
  fold (total l) (total l'). lia.
Qed.

Lemma Q_of_nat_add (a b : nat) :
  (Q_of_nat (a + b) == Q_of_nat a + Q_of_nat b)%Q.
Proof.
  unfold Q_of_nat. rewrite Nat2Z.inj_add, inject_Z_plus. reflexivity.
Qed.

Lemma Q_of_nat_nonzero (n : nat) : n <> 0%nat -> ~ (Q_of_nat n == 0)%Q.
Proof.
  intros Hn E. unfold Q_of_nat, Qeq in E. cbn in E. lia.
Qed.

(** The shares of a series of counts add up to the share of their sum. *)
Lemma Qsum_shares (T : Q) (counts : list (string * nat)) :
  (Qsum (map snd
           (times 100
              (map (fun e => (fst e, Q_of_nat (snd e) / T)) counts)))
   == Q_of_nat (total counts) / T * 100)%Q.
Proof.
  unfold times. rewrite !map_map. cbn [fst snd].
  induction counts as [|[k n] rest IH]; cbn [map Qsum total fold_right snd].
  - change (Q_of_nat 0) with 0%Q. unfold Qdiv. ring.
  - fold (total rest). rewrite IH, Q_of_nat_add. unfold Qdiv. ring.
Qed.

Section SatelliteShares.

Variable filtered : list (nat * FireRow).

Let col : list (option string) := column (@satellite _ _ _) filtered.

Lemma value_counts_entries (s : string) (n : nat) :
  In (s, n) (value_counts col)
  <-> (0 < n)%nat /\ n = count_carrying s col.
Proof.
  unfold value_counts.
  destruct (tally_column col [] (NoDup_nil _) (Forall_nil _))
    as (Hnd & Hpos & _ & Hcount).
  cbn in Hcount. split.
  - intros Hin. apply (Permutation_in _ (sort_desc_perm _)) in Hin.
    split.
    + rewrite Forall_forall in Hpos. apply (Hpos (s, n) Hin).
    + rewrite <- Hcount. symmetry. now apply tallied_of_entry.
  - intros [Hn ->].
    apply (Permutation_in _ (Permutation_sym (sort_desc_perm _))).
    rewrite <- Hcount in Hn |- *. now apply entry_of_tallied.
Qed.

Lemma value_counts_keys : NoDup (map fst (value_counts col)).
Proof.
  unfold value_counts.
  destruct (tally_column col [] (NoDup_nil _) (Forall_nil _)) as (Hnd & _).
  eapply Permutation_NoDup; [|exact Hnd].
  apply Permutation_map, Permutation_sym, sort_desc_perm.
Qed.

Lemma value_counts_total : total (value_counts col) = count_identified col.
Proof.
  unfold value_counts.
  destruct (tally_column col [] (NoDup_nil _) (Forall_nil _))
    as (_ & _ & Htotal & _).
  rewrite (total_perm _ _ (sort_desc_perm _)), Htotal. reflexivity.
Qed.

Lemma fire_by_sat_entries (s : string) (p : Q) :
  In (s, p) (fire_by_sat filtered)
  <-> (0 < count_carrying s col)%nat
      /\ p = (Q_of_nat (count_carrying s col)
              / Q_of_nat (count_identified col) * 100)%Q.
Proof.
  unfold fire_by_sat, times, value_counts_normalized. fold col.
  rewrite map_map, value_counts_total. cbn [fst snd]. rewrite in_map_iff.
  split.
  - intros [[k n] [E Hin]]. cbn [fst snd] in E. inversion E; subst.
    apply value_counts_entries in Hin. destruct Hin as [Hn ->]. auto.
  - intros [Hn ->]. exists (s, count_carrying s col). split; [reflexivity|].
    apply value_counts_entries. auto.
Qed.

Lemma fire_by_sat_keys : NoDup (map fst (fire_by_sat filtered)).
Proof.
  unfold fire_by_sat, times, value_counts_normalized. fold col.
  rewrite !map_map. cbn [fst]. apply value_counts_keys.
Qed.

Lemma fire_by_sat_sum :
  count_identified col <> 0%nat ->
  (Qsum (map snd (fire_by_sat filtered)) == 100)%Q.
Proof.
  intros Hne. unfold fire_by_sat, value_counts_normalized. fold col.
  rewrite Qsum_shares, value_counts_total.
  field. now apply Q_of_nat_nonzero.
Qed.

End SatelliteShares.

(** C8, as the code has it.  [value_counts] leaves out the rows without a
    satellite identifier.  When some row of the filtered set has an
    identifier, the series holds one share per identifier that occurs, the
    share is 100 times the rows carrying the identifier over the rows
    carrying any identifier, and the shares add up to 100 (exactly, on
    rationals).  For the satellites Aqua, Aqua, Terra the shares are 200/3
    and 100/3, which are 66.67 and 33.33 to two decimals. *)
Theorem fire_by_sat_shares_of_identified_rows :
  (forall filtered : list (nat * FireRow),
     count_identified (column (@satellite _ _ _) filtered) <> 0%nat ->
     (forall s p,
        In (s, p) (fire_by_sat filtered)
        <-> (0 < count_carrying s (column (@satellite _ _ _) filtered))%nat
            /\ p = (Q_of_nat
                      (count_carrying s (column (@satellite _ _ _) filtered))
                    / Q_of_nat
                        (count_identified (column (@satellite _ _ _) filtered))
                    * 100)%Q)
     /\ NoDup (map fst (fire_by_sat filtered))
     /\ (Qsum (map snd (fire_by_sat filtered)) == 100)%Q)
  /\ column (@satellite _ _ _) (gdf_rows sample_table)
     = [Some "Aqua"; Some "Aqua"; Some "Terra"]
  /\ fire_by_sat (gdf_rows sample_table)
     = [("Aqua", (200 # 3)%Q); ("Terra", (100 # 3)%Q)]
  /\ (Qabs ((200 # 3) - (6667 # 100)) < 5 # 1000)%Q
  /\ (Qabs ((100 # 3) - (3333 # 100)) < 5 # 1000)%Q.
Proof.
  split; [|repeat split].
  intros filtered Hne. split; [|split].
  - intros s p. apply fire_by_sat_entries.
  - apply fire_by_sat_keys.
  - now apply fire_by_sat_sum.
Qed.

Lemma fire_by_sat_shares_sample :
  count_identified (column (@satellite _ _ _) (gdf_rows sample_table))
  <> 0%nat
  /\ (Qsum (map snd (fire_by_sat (gdf_rows sample_table))) == 100)%Q.
Proof.
  assert (H : count_identified
                (column (@satellite _ _ _) (gdf_rows sample_table))
              <> 0%nat) by (vm_compute; discriminate).
  split; [exact H|].
  apply (proj1 fire_by_sat_shares_of_identified_rows
           (gdf_rows sample_table) H).
Defined.

(** C8 as stated fails.  The filtered set of the second day of
    [feed_with_unidentified_row] has one row, yet the series of shares is
    empty and its sum is 0, not 100.  And for the satellites Aqua, Aqua,
    Terra of the sample the shares are not the rounded 66.67 and 33.33. *)
Lemma fire_by_sat_shares_not_as_stated :
  List.length unidentified_rows = 1%nat
  /\ fire_by_sat unidentified_rows = []
  /\ (Qsum (map snd (fire_by_sat unidentified_rows)) == 0)%Q
  /\ ~ (Qsum (map snd (fire_by_sat unidentified_rows)) == 100)%Q
  /\ map fst (fire_by_sat (gdf_rows sample_table)) = ["Aqua"; "Terra"]
  /\ ~ Forall2 Qeq (map snd (fire_by_sat (gdf_rows sample_table)))
                   [(6667 # 100)%Q; (3333 # 100)%Q].
Proof.
  repeat split.
  - intros H. vm_compute in H. discriminate H.
  - intros H. inversion H as [|p q ps qs Hpq _]; subst.
    vm_compute in Hpq. discriminate Hpq.
Qed.

(** With [errors="raise"] the same malformed date would stop the load. *)
Example to_datetime_raise_malformed :
  to_datetime parse_iso_date errors_raise [Some "2024-05-02"; Some "yesterday"]
  = Raise (ParserError "yesterday")
  /\ to_datetime parse_iso_date errors_coerce
       [Some "2024-05-02"; Some "yesterday"; None]
     = Ok [Some (mkTimestamp may_2 0); None; None].
Proof. split; reflexivity. Qed.

(** A row without identifier is in neither count: one Aqua row and one
    unidentified row give Aqua the share 100. *)
Example fire_by_sat_skips_unidentified_row :
  fire_by_sat
    [ (0%nat, normalized parse_iso_date first_detection);
      (1%nat, mkRow (Some 1%Q) (Some 1%Q) (Some (mkTimestamp may_1 0))
                (Some 0)
                None None None (mkPoint (Some 1%Q) (Some 1%Q)) None) ]
  = [("Aqua", (100 # 1)%Q)].
Proof. reflexivity. Qed.

(** ** The claims on the sample feed *)

Lemma load_firms_data_rows_valid_sample :
  exists gdf,
    load_firms_data parse_iso_date (Ok sample_feed) = Ok gdf
    /\ ~ In 4%nat (index (gdf_rows gdf)).
Proof.
  destruct (load_firms_data_rows_valid parse_iso_date sample_feed)
    as (dates & gdf & _ & Hload & _ & Hdropped).
  exists gdf. split; [exact Hload|].
  apply (Hdropped 4%nat _ "yesterday" eq_refl eq_refl eq_refl).
Defined.

Lemma filter_by_date_projection_sample :
  gdf_rows (filter_by_date sample_table may_3) = [].
Proof.
  apply (proj1 (proj2 (proj2 (proj2 (proj2
           (filter_by_date_projection sample_table may_3)))))).
  intros ir Hin. vm_compute in Hin.
  destruct Hin as [<- | [<- | [<- | []]]]; discriminate.
Defined.

Lemma load_firms_data_geometry_sample :
  x (geometry (normalized parse_iso_date first_detection))
  = Some (-1102 # 10)%Q
  /\ y (geometry (normalized parse_iso_date first_detection))
     = Some (551 # 10)%Q.
Proof.
  destruct (load_firms_data_geometry parse_iso_date sample_feed)
    as (gdf & Hload & _ & Hgeometry).
  rewrite load_firms_data_closed_form in Hload.
  injection Hload as <-.
  destruct (Hgeometry 0%nat (normalized parse_iso_date first_detection)
              (or_introl eq_refl)) as (Hx & Hy & _).
  split; [exact Hx | exact Hy].
Defined.

Lemma load_firms_data_value_sample :
  value (normalized parse_iso_date first_detection) = Some (3001 # 10)%Q.
Proof.
  destruct (load_firms_data_value parse_iso_date sample_feed)
    as (gdf & Hload & Hvalue).
  rewrite load_firms_data_closed_form in Hload.
  injection Hload as <-.
  destruct (Hvalue 0%nat (normalized parse_iso_date first_detection)
              (or_introl eq_refl)) as (Hv & _).
  exact Hv.
Defined.

Lemma hourly_buckets_by_floor_division_sample :
  floordiv [Some 1345] 100 = [Some 13] /\ 0 <= 13 <= 23
  /\ 1300 <= 1345 < 1400.
Proof.
  apply (proj1 (proj2 hourly_buckets_by_floor_division) 1345). lia.
Defined.

Lemma export_offers_csv_of_filtered_rows_sample :
  filter is_download_button
    (snd (page sample_to_csv (Ok sample_table) untouched_sidebar []))
  = [ DownloadButton "⬇️ Download CSV" "Aqua,Terra" "filtered_fires.csv" ].
Proof.
  apply (proj2 (proj2 (export_offers_csv_of_filtered_rows sample_to_csv))
           (Ok sample_table) untouched_sidebar
           (filter_by_date sample_table may_2)).
  reflexivity.
Defined.

(** * Further properties of the script *)

(** ** The order of dates and the default date *)

Ltac date_cases :=
  repeat match goal with
         | |- context [?a <? ?b] => destruct (Z.ltb_spec a b)
         | |- context [?a =? ?b] => destruct (Z.eqb_spec a b)
         | H : context [?a <? ?b] |- _ => destruct (Z.ltb_spec a b)
         | H : context [?a =? ?b] |- _ => destruct (Z.eqb_spec a b)
         end;
  cbn in *; try reflexivity; try discriminate; try lia.

Lemma Date_ltb_irrefl (a : Date) : Date_ltb a a = false.
Proof. destruct a as [ya ma da]. unfold Date_ltb. cbn. date_cases. Qed.

Lemma Date_ltb_asym (a b : Date) :
  Date_ltb a b = true -> Date_ltb b a = false.
Proof.
  destruct a as [ya ma da], b as [yb mb db]. unfold Date_ltb. cbn.
  date_cases.
Qed.

Lemma Date_ge_trans (a b c : Date) :
  Date_ltb a b = false -> Date_ltb b c = false -> Date_ltb a c = false.
Proof.
  destruct a as [ya ma da], b as [yb mb db], c as [yc mc dc].
  unfold Date_ltb. cbn. date_cases.
Qed.

Lemma max_from_spec (rest : list Date) (best : Date) :
  (max_from best rest = best \/ In (max_from best rest) rest)
  /\ Date_ltb (max_from best rest) best = false
  /\ forall e, In e rest -> Date_ltb (max_from best rest) e = false.
Proof.
  revert best. induction rest as [|d rest IH]; intros best; cbn.
  - split; [now left|]. split; [apply Date_ltb_irrefl | intros e []].
  - destruct (IH (if Date_ltb best d then d else best)) as (Hin & Hge & Hall).
    destruct (Date_ltb best d) eqn:Hlt.
    + split; [destruct Hin as [-> | Hin]; auto|]. split.
      * eapply Date_ge_trans; [exact Hge | now apply Date_ltb_asym].
      * intros e [<- | He]; [exact Hge | now apply Hall].
    + split; [destruct Hin as [-> | Hin]; auto|]. split; [exact Hge|].
      intros e [<- | He]; [|now apply Hall].
      eapply Date_ge_trans; [exact Hge | exact Hlt].
Qed.

Lemma opt_Date_eqb_eq (a b : option Date) : opt_Date_eqb a b = true <-> a = b.
Proof.
  destruct a as [d|], b as [e|]; cbn; try (split; congruence).
  rewrite Date_eqb_eq. split; congruence.
Qed.

Lemma existsb_seen (c : option Date) (seen : list (option Date)) :
  existsb (opt_Date_eqb c) seen = true <-> In c seen.
Proof.
  rewrite existsb_exists. split.
  - intros [y [Hin E]]. apply opt_Date_eqb_eq in E. now subst.
  - intros Hin. exists c. split; [exact Hin | now apply opt_Date_eqb_eq].
Qed.

Lemma in_unique_from (c : option Date) (col seen : list (option Date)) :
  In c (unique_from seen col) <-> In c col /\ ~ In c seen.
Proof.
  revert seen. induction col as [|c0 rest IH]; intros seen; cbn.
  - tauto.
  - destruct (existsb (opt_Date_eqb c0) seen) eqn:E.
    + apply existsb_seen in E. rewrite IH. split.
      * intros [H1 H2]. auto.
      * intros [[-> | H1] H2]; [contradiction | auto].
    + assert (Hnot : ~ In c0 seen).
      { intros H. apply existsb_seen in H. congruence. }
      cbn. rewrite IH. cbn. split.
      * intros [<- | [H1 H2]]; [auto | tauto].
      * intros [[<- | H1] H2]; [now left|].
        destruct (opt_Date_eqb c0 c) eqn:Ec.
        -- apply opt_Date_eqb_eq in Ec. now left.
        -- right. split; [exact H1|]. intros [<- | H]; [|contradiction].
           rewrite (proj2 (opt_Date_eqb_eq c0 c0) eq_refl) in Ec.
           discriminate.
Qed.

Lemma in_unique (c : option Date) (col : list (option Date)) :
  In c (unique col) <-> In c col.
Proof. unfold unique. rewrite in_unique_from. cbn. tauto. Qed.

Lemma all_dates_Some (col : list (option Date)) (ds : list Date) :
  all_dates col = Some ds -> col = map Some ds.
Proof.
  revert ds. induction col as [|c rest IH]; intros ds; cbn.
  - intros E. inversion E. reflexivity.
  - destruct c as [d|]; [|discriminate].
    destruct (all_dates rest) as [ds'|]; cbn; [|discriminate].
    intros E. inversion E; subst. cbn. now rewrite (IH ds' eq_refl).
Qed.

(** The default of the date input is the latest date of the column. *)
Lemma py_max_latest (col : list (option Date)) (d : Date) :
  py_max (unique col) = Ok d ->
  In (Some d) col /\ forall e, In (Some e) col -> Date_ltb d e = false.
Proof.
  unfold py_max. destruct (unique col) as [|c rest] eqn:Eu; [discriminate|].
  destruct (all_dates (c :: rest)) as [[|d0 ds]|] eqn:Ea; try discriminate.
  intros E. inversion E; subst d. clear E.
  apply all_dates_Some in Ea.
  destruct (max_from_spec ds d0) as (Hin & Hge & Hall).
  assert (Hmem : forall e, In (Some e) col <-> e = d0 \/ In e ds).
  { intros e. rewrite <- in_unique, Eu, Ea. cbn. rewrite in_map_iff. split.
    - intros [H | [y [H Hy]]]; [left | right]; congruence.
    - intros [-> | H]; [now left | right; eauto]. }
  split.
  - apply Hmem. destruct Hin as [-> | Hin]; auto.
  - intros e He. apply Hmem in He. destruct He as [-> | He]; auto.
Qed.

(** ** The table of a feed *)

Section FeedTable.

Variable parse_datetime : string -> option Timestamp.
Variable to_csv : bool -> list (nat * FireRow) -> string.

Lemma load_firms_data_table (rows : list RawRow) :
  load_firms_data parse_datetime (Ok rows)
  = Ok (normalized_table parse_datetime rows).
Proof. apply load_firms_data_closed_form. Qed.

Lemma in_table (rows : list RawRow) (i : nat) (r : FireRow) :
  In (i, r) (gdf_rows (normalized_table parse_datetime rows))
  <-> exists raw, nth_error rows i = Some raw
                  /\ survives parse_datetime raw = true
                  /\ r = normalized parse_datetime raw.
Proof.
  apply in_normalized_table, load_firms_data_table.
Qed.

Lemma table_has_no_NaT (rows : list RawRow) (ir : nat * FireRow) :
  In ir (gdf_rows (normalized_table parse_datetime rows)) ->
  acq_date (snd ir) <> None.
Proof.
  destruct ir as [i r]. intros Hin. apply in_table in Hin.
  destruct Hin as (raw & _ & Hs & ->). cbn.
  apply survives_cells in Hs. destruct Hs as (_ & _ & s & t & Hd & Hp).
  rewrite Hd. cbn. congruence.
Qed.

Lemma table_row_of_survivor (rows : list RawRow) (raw : RawRow) :
  In raw rows -> survives parse_datetime raw = true ->
  exists i, In (i, normalized parse_datetime raw)
              (gdf_rows (normalized_table parse_datetime rows)).
Proof.
  intros Hin Hs. apply In_nth_error in Hin. destruct Hin as [i Hi].
  exists i. apply in_table. eauto.
Qed.

(** A first run, on an empty cache. *)
Lemma app_first_run (rows : list RawRow) (now : Z) (ui : Sidebar) :
  app parse_datetime to_csv (Ok rows) None now ui
  = (page to_csv (Ok (normalized_table parse_datetime rows)) ui [],
     Some (mkCacheEntry (normalized_table parse_datetime rows) now)).
Proof.
  unfold app, cache_data. rewrite load_firms_data_table. reflexivity.
Qed.

(** The default date of a table with a row. *)
Lemma table_default_date (rows : list RawRow) (raw : RawRow) :
  In raw rows -> survives parse_datetime raw = true ->
  exists default,
    py_max (unique (dt_date (column (@acq_date _ _ _)
              (gdf_rows (normalized_table parse_datetime rows)))))
    = Ok default.
Proof.
  intros Hin Hs. apply py_max_available_dates.
  - destruct (table_row_of_survivor rows raw Hin Hs) as [i Hi].
    intros E. rewrite E in Hi. exact Hi.
  - intros ir. apply table_has_no_NaT.
Qed.

End FeedTable.

(** ** Runs on a fresh cache *)

Lemma existsb_none {A : Type} (p : A -> bool) (l : list A) :
  (forall a, In a l -> p a = false) -> existsb p l = false.
Proof.
  induction l as [|a l IH]; intros H; cbn; [reflexivity|].
  rewrite (H a (or_introl eq_refl)). apply IH. intros b Hb. apply H.
  now right.
Qed.

Lemma existsb_agree {A : Type} (p q : A -> bool) (l : list A) :
  (forall a, In a l -> p a = q a) -> existsb p l = existsb q l.
Proof.
  induction l as [|a l IH]; intros H; cbn; [reflexivity|].
  rewrite (H a (or_introl eq_refl)). f_equal. apply IH. intros b Hb.
  apply H. now right.
Qed.

(** On rows filtered out of the table of a feed only a missing brightness
    can stop the map, and only with the Hotspots box ticked. *)
Lemma table_map_failure (parse_datetime : string -> option Timestamp)
    (rows : list RawRow) (d : Date) (show_hotspots : bool) :
  map_failure
    (gdf_rows (filter_by_date (normalized_table parse_datetime rows) d))
    show_hotspots
  = if show_hotspots
       && existsb (fun ir => isna (brightness (snd ir)))
            (gdf_rows (filter_by_date
                         (normalized_table parse_datetime rows) d))
    then Some (PyException "data may not contain NaNs.")
    else None.
Proof.
  set (filtered := gdf_rows (filter_by_date
                               (normalized_table parse_datetime rows) d)).
  assert (Hrow : forall ir, In ir filtered ->
            exists raw, survives parse_datetime raw = true
                        /\ snd ir = normalized parse_datetime raw).
  { intros [i fr] Hin. unfold filtered in Hin.
    rewrite filter_by_date_rows in Hin. apply filter_In in Hin.
    destruct Hin as [Hin _]. apply in_table in Hin.
    destruct Hin as (raw & _ & Hs & ->). eauto. }
  unfold map_failure.
  rewrite (existsb_none (fun ir : nat * FireRow => nowhere (snd ir)) filtered).
  - rewrite andb_false_r.
    rewrite (existsb_agree (fun ir : nat * FireRow => isna (value (snd ir)))
               (fun ir => isna (brightness (snd ir))) filtered).
    + destruct (show_hotspots && _); reflexivity.
    + intros ir Hin. destruct (Hrow ir Hin) as (raw & _ & ->). reflexivity.
  - intros ir Hin. destruct (Hrow ir Hin) as (raw & Hs & ->).
    apply survives_cells in Hs. destruct Hs as (Hlat & Hlon & _).
    unfold nowhere. cbn.
    destruct (latitude raw), (longitude raw); cbn; congruence.
Qed.

(** X1.  The outcome of a first run on a fetched feed.  When no row of
    the feed has a latitude, a longitude and a date that parses, the run
    raises [ValueError] at [max(available_dates)] with only the sidebar
    header rendered.  Otherwise the default date exists; when the
    Hotspots box is ticked and a row of the selected date has no
    brightness, the run raises at [add_heatmap] with nothing rendered
    after the caption; in every other case it reaches its end. *)
Theorem first_run_outcome
    (parse_datetime : string -> option Timestamp)
    (to_csv : bool -> list (nat * FireRow) -> string)
    (rows : list RawRow) (now : Z) (ui : Sidebar) :
  ((forall r, In r rows -> survives parse_datetime r = false) ->
   fst (app parse_datetime to_csv (Ok rows) None now ui)
   = (Raise (ValueError "max() arg is an empty sequence"),
      [Header "📍 Filters"]))
  /\ (forall r, In r rows -> survives parse_datetime r = true ->
      exists default,
        py_max (unique (dt_date (column (@acq_date _ _ _)
                  (gdf_rows (normalized_table parse_datetime rows)))))
        = Ok default
        /\ fst (app parse_datetime to_csv (Ok rows) None now ui)
           = if ui_hotspots ui
                && existsb (fun ir => isna (brightness (snd ir)))
                     (gdf_rows
                        (filter_by_date
                           (normalized_table parse_datetime rows)
                           (date_input (ui_date ui) default)))
             then (Raise (PyException "data may not contain NaNs."),
                   page_head)
             else (Ok (filter_by_date
                         (normalized_table parse_datetime rows)
                         (date_input (ui_date ui) default)),
                   finished_page to_csv
                     (gdf_rows
                        (filter_by_date
                           (normalized_table parse_datetime rows)
                           (date_input (ui_date ui) default)))
                     (basemap_dict (ui_basemap ui)) (ui_hotspots ui))).
Proof.
  rewrite app_first_run. cbn [fst]. rewrite page_run. split.
  - intros Hnone.
    assert (Hempty : gdf_rows (normalized_table parse_datetime rows) = []).
    { cbn [gdf_rows normalized_table]. rewrite filter_drops_all; [reflexivity|].
      intros [i r] Hin. cbn [snd]. apply Hnone.
      apply in_range_index in Hin. eapply nth_error_In. exact Hin. }
    rewrite Hempty. reflexivity.
  - intros r Hin Hs.
    destruct (table_default_date parse_datetime rows r Hin Hs) as [d Hd].
    exists d. split; [exact Hd|]. rewrite Hd. cbv zeta.
    rewrite table_map_failure.
    destruct (ui_hotspots ui && _); reflexivity.
Qed.

Lemma first_run_outcome_sample :
  fst (app parse_iso_date sample_to_csv (Ok feed_with_unmeasured_row) None 0
         untouched_sidebar)
  = (Raise (PyException "data may not contain NaNs."), page_head)
  /\ fst (app parse_iso_date sample_to_csv (Ok feed_without_valid_rows) None 0
            untouched_sidebar)
     = (Raise (ValueError "max() arg is an empty sequence"),
        [Header "📍 Filters"]).
Proof.
  split.
  - destruct (proj2 (first_run_outcome parse_iso_date sample_to_csv
                       feed_with_unmeasured_row 0 untouched_sidebar)
                first_detection (or_introl eq_refl) eq_refl)
      as (default & Hdefault & Hrun).
    vm_compute in Hdefault. injection Hdefault as <-.
    rewrite Hrun. reflexivity.
  - apply (proj1 (first_run_outcome parse_iso_date sample_to_csv
                    feed_without_valid_rows 0 untouched_sidebar)).
    intros r [<- | []]. reflexivity.
Defined.

(** X2.  With the date input left untouched, the date a first run filters
    by, on a feed with a surviving row, is the latest acquisition date
    among the surviving rows, and the table filtered by it has a row; so
    a run that reaches its end returns that table and shows no "no data"
    warning. *)
Theorem default_date_is_latest_and_has_rows
    (parse_datetime : string -> option Timestamp)
    (to_csv : bool -> list (nat * FireRow) -> string)
    (rows : list RawRow) (now : Z) (ui : Sidebar) (r : RawRow) :
  In r rows -> survives parse_datetime r = true -> ui_date ui = None ->
  exists default,
    py_max (unique (dt_date (column (@acq_date _ _ _)
              (gdf_rows (normalized_table parse_datetime rows)))))
    = Ok default
    /\ gdf_rows (filter_by_date (normalized_table parse_datetime rows) default)
       <> []
    /\ (exists raw t,
          In raw rows /\ survives parse_datetime raw = true
          /\ coerced parse_datetime (acq_date raw) = Some t
          /\ ts_date t = default)
    /\ (forall raw t,
          In raw rows -> survives parse_datetime raw = true ->
          coerced parse_datetime (acq_date raw) = Some t ->
          Date_ltb default (ts_date t) = false)
    /\ (forall filtered els cache,
          app parse_datetime to_csv (Ok rows) None now ui
          = (Ok filtered, els, cache) ->
          filtered
          = filter_by_date (normalized_table parse_datetime rows) default
          /\ ~ In (Warning "No fire data available for selected date.") els).
Proof.
  intros Hin Hs Hui.
  destruct (table_default_date parse_datetime rows r Hin Hs) as [d Hd].
  exists d. split; [exact Hd|].
  pose proof Hd as Hmax. apply py_max_latest in Hmax.
  destruct Hmax as [Hmem Hlatest].
  unfold dt_date, column in Hmem, Hlatest. rewrite map_map in Hmem, Hlatest.
  apply in_map_iff in Hmem. destruct Hmem as ([i fr] & Hdate & Hrow).
  cbn [snd] in Hdate.
  assert (Hfiltered :
    In (i, fr) (gdf_rows (filter_by_date
                            (normalized_table parse_datetime rows) d))).
  { rewrite filter_by_date_rows. apply filter_In. split; [exact Hrow|].
    unfold acquired_on. cbn [snd]. rewrite Hdate.
    apply (proj2 (opt_Date_eqb_eq _ _)). reflexivity. }
  assert (Hne : gdf_rows (filter_by_date
                            (normalized_table parse_datetime rows) d) <> [])
    by (intros E; rewrite E in Hfiltered; exact Hfiltered).
  split; [exact Hne|]. split; [|split].
  - apply in_table in Hrow. destruct Hrow as (raw & Hn & Hsr & ->).
    cbn in Hdate. destruct (coerced parse_datetime (acq_date raw)) as [t|] eqn:Ec;
      [|discriminate].
    cbn in Hdate. inversion Hdate. exists raw, t.
    repeat split; auto. eapply nth_error_In. exact Hn.
  - intros raw t Hraw Hsr Hc.
    destruct (table_row_of_survivor parse_datetime rows raw Hraw Hsr)
      as [j Hj].
    apply Hlatest. apply in_map_iff.
    exists (j, normalized parse_datetime raw). split; [|exact Hj].
    cbn. rewrite Hc. reflexivity.
  - intros filtered els cache.
    rewrite app_first_run, page_run, Hd, Hui. cbv zeta. cbn [date_input].
    destruct (map_failure _ _) as [e|]; [discriminate|].
    intros Hrun. split; [congruence|].
    replace els
      with (finished_page to_csv
              (gdf_rows (filter_by_date
                           (normalized_table parse_datetime rows) d))
              (basemap_dict (ui_basemap ui)) (ui_hotspots ui))
      by congruence.
    unfold finished_page.
    destruct (gdf_rows (filter_by_date
                          (normalized_table parse_datetime rows) d))
      as [|ir rest]; [contradiction|].
    cbn. intros H.
    repeat (destruct H as [H | H]; [discriminate H|]). exact H.
Qed.

Lemma default_date_is_latest_and_has_rows_sample :
  exists default,
    py_max (unique (dt_date (column (@acq_date _ _ _)
              (gdf_rows (normalized_table parse_iso_date sample_feed)))))
    = Ok default
    /\ gdf_rows (filter_by_date (normalized_table parse_iso_date sample_feed)
                   default) <> [].
Proof.
  destruct (default_date_is_latest_and_has_rows parse_iso_date sample_to_csv
              sample_feed 0 untouched_sidebar first_detection
              (or_introl eq_refl) eq_refl eq_refl)
    as (default & Hdefault & Hrows & _).
  exists default. split; [exact Hdefault | exact Hrows].
Defined.

(** X3.  When the user picks a date on which no surviving row was
    acquired, a first run on a feed with a surviving row reaches its end
    with an empty filtered table: the page holds the map without markers
    or heat layer, the metric Total Fires 0, no other metric, no chart and
    no download button, and ends with the warning. *)
Theorem page_of_a_date_without_detections
    (parse_datetime : string -> option Timestamp)
    (to_csv : bool -> list (nat * FireRow) -> string)
    (rows : list RawRow) (now : Z) (ui : Sidebar) (r : RawRow) (d : Date) :
  In r rows -> survives parse_datetime r = true -> ui_date ui = Some d ->
  (forall raw t,
     In raw rows -> survives parse_datetime raw = true ->
     coerced parse_datetime (acq_date raw) = Some t -> ts_date t <> d) ->
  app parse_datetime to_csv (Ok rows) None now ui
  = (Ok (mkGeoDataFrame [] "EPSG:4326"),
     [ Header "📍 Filters";
       Markdown "### 🗺️ Basemap";
       Markdown "### 🌐 Layers";
       Markdown "## 🔥 Canada Wildfire Dashboard";
       Caption "Powered by NASA FIRMS – MODIS C6.1 (Last 7 Days)";
       MapElement (mkLeafMap (56, -106) 4 500 (basemap_dict (ui_basemap ui))
                     None []);
       Markdown "### 🎯 Key Metrics";
       Metric "Total Fires" (MetricCount 0);
       Markdown "### 📊 Fire Activity Trends";
       Markdown "### 💾 Export Filtered Data";
       Warning "No fire data available for selected date." ],
     Some (mkCacheEntry (normalized_table parse_datetime rows) now)).
Proof.
  intros Hin Hs Hui Hnone.
  destruct (table_default_date parse_datetime rows r Hin Hs) as [default Hd].
  rewrite app_first_run, page_run, Hd, Hui. cbv zeta. cbn [date_input].
  assert (Hempty :
    gdf_rows (filter_by_date (normalized_table parse_datetime rows) d) = []).
  { rewrite filter_by_date_rows. apply filter_drops_all.
    intros [i fr] Hrow. cbn [snd].
    destruct (acquired_on d fr) eqn:Ha; [|reflexivity].
    apply acquired_on_spec in Ha. destruct Ha as (t & Ht & Hdt).
    apply in_table in Hrow. destruct Hrow as (raw & Hn & Hsr & ->).
    cbn in Ht. exfalso.
    apply (Hnone raw t (nth_error_In _ _ Hn) Hsr Ht Hdt). }
  replace (filter_by_date (normalized_table parse_datetime rows) d)
    with (mkGeoDataFrame (@nil (nat * FireRow)) "EPSG:4326").
  - unfold map_failure. cbn [gdf_rows existsb]. rewrite !andb_false_r.
    reflexivity.
  - unfold filter_by_date in Hempty |- *. cbn [gdf_rows] in Hempty.
    rewrite Hempty. reflexivity.
Qed.

Lemma page_of_a_date_without_detections_sample :
  fst (fst (app parse_iso_date sample_to_csv (Ok sample_feed) None 0
              (mkSidebar Quebec Toronto (Some may_3) CartoDB_Positron true
                 false false false)))
  = Ok (mkGeoDataFrame [] "EPSG:4326").
Proof.
  rewrite (page_of_a_date_without_detections parse_iso_date sample_to_csv
             sample_feed 0
             (mkSidebar Quebec Toronto (Some may_3) CartoDB_Positron true
                false false false)
             first_detection may_3 (or_introl eq_refl) eq_refl eq_refl).
  - reflexivity.
  - intros raw t Hraw Hs Hc E.
    cbn in Hraw.
    destruct Hraw as [<- | [<- | [<- | [<- | [<- | []]]]]];
      vm_compute in Hc; inversion Hc; subst t; discriminate E.
Defined.

(** ** The hourly series *)

Lemma keys_bump (h k : Z) (sizes : list (Z * nat)) :
  In h (map fst (bump k sizes)) <-> h = k \/ In h (map fst sizes).
Proof.
  induction sizes as [|[k' n] rest IH]; cbn.
  - intuition congruence.
  - destruct (k <? k'); cbn; [intuition congruence|].
    destruct (Z.eqb_spec k k') as [-> | Hne]; cbn.
    + intuition congruence.
    + rewrite IH. intuition congruence.
Qed.

Lemma positive_bump (k : Z) (sizes : list (Z * nat)) :
  Forall (fun e => (0 < snd e)%nat) sizes ->
  Forall (fun e => (0 < snd e)%nat) (bump k sizes).
Proof.
  induction 1 as [|[k' n] rest Hn Hrest IH]; cbn.
  - repeat constructor.
  - cbn in Hn. destruct (k <? k'); [repeat constructor; cbn; auto; lia|].
    destruct (k =? k'); constructor; cbn; try assumption; lia.
Qed.

Lemma sum_bump (k : Z) (sizes : list (Z * nat)) :
  list_sum (map snd (bump k sizes)) = S (list_sum (map snd sizes)).
Proof.
  unfold list_sum.
  induction sizes as [|[k' n] rest IH]; cbn; [reflexivity|].
  destruct (k <? k'); cbn; [reflexivity|].
  destruct (k =? k'); cbn; [reflexivity|]. rewrite IH. lia.
Qed.

Lemma fold_bump_invariants (keys : list Z) (sizes : list (Z * nat)) :
  Forall (fun e => (0 < snd e)%nat) sizes ->
  Forall (fun e => (0 < snd e)%nat)
    (fold_left (fun s k => bump k s) keys sizes)
  /\ list_sum (map snd (fold_left (fun s k => bump k s) keys sizes))
     = (list_sum (map snd sizes) + List.length keys)%nat
  /\ forall h, In h (map fst (fold_left (fun s k => bump k s) keys sizes))
               <-> In h keys \/ In h (map fst sizes).
Proof.
  revert sizes.
  induction keys as [|k keys IH]; intros sizes Hpos;
    cbn [fold_left List.length In].
  - split; [exact Hpos|]. split; [lia | tauto].
  - destruct (IH (bump k sizes) (positive_bump k sizes Hpos))
      as (H1 & H2 & H3).
    split; [exact H1|]. split.
    + rewrite H2, sum_bump. lia.
    + intros h. rewrite H3, keys_bump. intuition congruence.
Qed.

Lemma in_present {A : Type} (a : A) (col : list (option A)) :
  In a (present col) <-> In (Some a) col.
Proof.
  induction col as [|[b|] col IH]; cbn.
  - tauto.
  - rewrite IH. split; intros [E | H]; auto; left; congruence.
  - rewrite IH. split; [auto | intros [E | H]; [discriminate | exact H]].
Qed.

Lemma length_present {A : Type} (col : list (option A)) :
  (List.length (present col) <= List.length col)%nat
  /\ ((forall c, In c col -> c <> None) ->
      List.length (present col) = List.length col).
Proof.
  induction col as [|[b|] col [IHle IHeq]]; cbn.
  - split; [lia | reflexivity].
  - split; [lia|]. intros H. f_equal. apply IHeq. intros c Hc. apply H.
    now right.
  - split; [lia|]. intros H. exfalso. apply (H None); [now left | reflexivity].
Qed.

(** The bars of the hourly chart add up to the rows that have a time. *)
Lemma hourly_counts_sum (filtered : list (nat * FireRow)) :
  list_sum (map snd (hourly filtered))
  = List.length (present (column (@acq_time _ _ _) filtered)).
Proof.
  rewrite hourly_present.
  destruct (fold_bump_invariants
              (map (fun t => t / 100)
                 (present (column (@acq_time _ _ _) filtered)))
              [] (Forall_nil _)) as (_ & -> & _).
  cbn [map list_sum fold_right Nat.add]. now rewrite length_map.
Qed.

(** X4.  The hourly series lists the hours in increasing order, each once
    and only hours in which a row was acquired, with a positive count.  A
    row without acquisition time is in no bucket: the counts add up to
    the number of rows that have a time, which is the number of rows when
    every row has one.  When every acquisition time is between 0 and 2359
    every listed hour is between 0 and 23. *)
Theorem hourly_series_invariants (filtered : list (nat * FireRow)) :
  StronglySorted key_lt (hourly filtered)
  /\ (forall h n, In (h, n) (hourly filtered) -> (0 < n)%nat)
  /\ list_sum (map snd (hourly filtered))
     = List.length (present (column (@acq_time _ _ _) filtered))
  /\ (list_sum (map snd (hourly filtered)) <= List.length filtered)%nat
  /\ ((forall ir, In ir filtered -> acq_time (snd ir) <> None) ->
      list_sum (map snd (hourly filtered)) = List.length filtered)
  /\ (forall h, In h (map fst (hourly filtered))
                <-> exists ir t, In ir filtered
                                 /\ acq_time (snd ir) = Some t
                                 /\ t / 100 = h)
  /\ ((forall ir t, In ir filtered -> acq_time (snd ir) = Some t ->
                    0 <= t <= 2359) ->
      forall h, In h (map fst (hourly filtered)) -> 0 <= h <= 23).
Proof.
  pose proof (hourly_counts_sum filtered) as Hsum.
  destruct (length_present (column (@acq_time _ _ _) filtered))
    as [Hle Heq].
  unfold column in Hle, Heq. rewrite length_map in Hle, Heq.
  rewrite hourly_present in *.
  set (keys := map (fun t => t / 100)
                 (present (column (@acq_time _ _ _) filtered))) in *.
  destruct (size_at_fold_bump 0 keys [] (SSorted_nil _)) as [Hsorted _].
  destruct (fold_bump_invariants keys [] (Forall_nil _))
    as (Hpos & _ & Hkeys).
  assert (Hmem : forall h,
             In h (map fst (fold_left (fun s k => bump k s) keys []))
             <-> exists ir t, In ir filtered
                              /\ acq_time (snd ir) = Some t
                              /\ t / 100 = h).
  { intros h. rewrite Hkeys. cbn. unfold keys. rewrite in_map_iff. split.
    - intros [(t & E & Hin) | []]. apply in_present in Hin.
      unfold column in Hin. apply in_map_iff in Hin.
      destruct Hin as (ir & Ht & Hir). eauto.
    - intros (ir & t & Hin & Ht & E). left. exists t. split; [exact E|].
      apply in_present. unfold column. apply in_map_iff. eauto. }
  split; [exact Hsorted|]. split; [|split; [|split; [|split; [|split]]]].
  - intros h n Hin. rewrite Forall_forall in Hpos. apply (Hpos (h, n) Hin).
  - exact Hsum.
  - rewrite Hsum. exact Hle.
  - intros Hall. rewrite Hsum. apply Heq. intros c Hc.
    apply in_map_iff in Hc. destruct Hc as (ir & <- & Hin). now apply Hall.
  - exact Hmem.
  - intros Hrange h Hh. apply Hmem in Hh.
    destruct Hh as (ir & t & Hin & Ht & <-).
    specialize (Hrange ir t Hin Ht).
    split; [apply Z.div_pos; lia|].
    apply Z.lt_succ_r. apply Z.div_lt_upper_bound; lia.
Qed.

Lemma hourly_series_invariants_sample :
  In 13 (map fst (hourly (gdf_rows sample_table))) /\ 0 <= 13 <= 23.
Proof.
  assert (Hin : In 13 (map fst (hourly (gdf_rows sample_table))))
    by (vm_compute; tauto).
  split; [exact Hin|].
  apply (proj2 (proj2 (proj2 (proj2 (proj2 (proj2
           (hourly_series_invariants (gdf_rows sample_table)))))))); 
    [|exact Hin].
  intros ir t Hir Ht. vm_compute in Hir.
  destruct Hir as [<- | [<- | [<- | []]]]; cbn in Ht; inversion Ht; lia.
Defined.

(** ** The metrics *)

Lemma float_max_spec (a b : option Q) :
  (float_max a b = None <-> a = None /\ b = None)
  /\ forall m, float_max a b = Some m ->
       (a = Some m \/ b = Some m)
       /\ (forall q, a = Some q -> (q <= m)%Q)
       /\ (forall q, b = Some q -> (q <= m)%Q).
Proof.
  destruct a as [p|], b as [q|]; cbn.
  - destruct (Qle_bool p q) eqn:E.
    + apply Qle_bool_iff in E. split; [split; [discriminate | intros [? _]; discriminate]|].
      intros m Hm. inversion Hm; subst. split; [now right|].
      split; intros x Hx; inversion Hx; subst; [exact E | apply Qle_refl].
    + assert (Hlt : (q < p)%Q).
      { apply Qnot_le_lt. intros H. apply Qle_bool_iff in H. congruence. }
      split; [split; [discriminate | intros [? _]; discriminate]|].
      intros m Hm. inversion Hm; subst. split; [now left|].
      split; intros x Hx; inversion Hx; subst;
        [apply Qle_refl | now apply Qlt_le_weak].
  - split; [split; [discriminate | intros [? _]; discriminate]|].
    intros m Hm. inversion Hm; subst. split; [now left|].
    split; intros x Hx; inversion Hx; subst. apply Qle_refl.
  - split; [split; [discriminate | intros [_ ?]; discriminate]|].
    intros m Hm. inversion Hm; subst. split; [now right|].
    split; intros x Hx; inversion Hx; subst. apply Qle_refl.
  - split; [tauto|]. discriminate.
Qed.

Lemma fold_float_max_spec (col : list (option Q)) (acc : option Q) :
  (fold_left float_max col acc = None
   <-> acc = None /\ forall c, In c col -> c = None)
  /\ forall m, fold_left float_max col acc = Some m ->
       (acc = Some m \/ In (Some m) col)
       /\ (forall q, acc = Some q -> (q <= m)%Q)
       /\ (forall q, In (Some q) col -> (q <= m)%Q).
Proof.
  revert acc. induction col as [|c col IH]; intros acc; cbn.
  - split.
    + split; [intros ->; split; [reflexivity | intros c []]
             | intros [-> _]; reflexivity].
    + intros m ->. split; [now left|]. split; [|intros q []].
      intros q E. inversion E. apply Qle_refl.
  - destruct (IH (float_max acc c)) as [Hnone Hsome].
    destruct (float_max_spec acc c) as [Fnone Fsome].
    split.
    + rewrite Hnone, Fnone. split.
      * intros [[-> ->] H]. split; [reflexivity|].
        intros c' [<- | Hc']; auto.
      * intros [-> H]. split; [split; auto|]. auto.
    + intros m Hm. destruct (Hsome m Hm) as (Hin & Hacc & Hcol).
      assert (Hstep : forall q, float_max acc c = Some q -> (q <= m)%Q)
        by exact Hacc.
      split; [|split].
      * destruct Hin as [Hin | Hin]; [|auto].
        destruct (Fsome m Hin) as ([E | E] & _); [now left | right; left; auto].
      * intros q Hq. destruct (float_max acc c) as [x|] eqn:Ex.
        -- destruct (Fsome x eq_refl) as (_ & Ha & _).
           eapply Qle_trans; [apply (Ha q Hq) | apply Hstep; reflexivity].
        -- destruct (proj1 Fnone eq_refl) as [Ea _]. congruence.
      * intros q [-> | Hq]; [|now apply Hcol].
        destruct (float_max acc (Some q)) as [x|] eqn:Ex.
        -- destruct (Fsome x eq_refl) as (_ & _ & Hb).
           eapply Qle_trans; [apply (Hb q eq_refl) | apply Hstep; reflexivity].
        -- destruct (proj1 Fnone eq_refl) as [_ Ec]. discriminate.
Qed.

(** X5.  The Max Brightness metric is NaN exactly when no filtered row has
    a brightness; otherwise it is the brightness of one of the rows and no
    row is brighter. *)
Theorem max_brightness_is_greatest (filtered : list (nat * FireRow)) :
  (series_max (column (@brightness _ _ _) filtered) = None
   <-> forall ir, In ir filtered -> brightness (snd ir) = None)
  /\ forall m,
       series_max (column (@brightness _ _ _) filtered) = Some m ->
       (exists ir, In ir filtered /\ brightness (snd ir) = Some m)
       /\ forall ir q, In ir filtered -> brightness (snd ir) = Some q ->
                       (q <= m)%Q.
Proof.
  unfold series_max, column.
  destruct (fold_float_max_spec
              (map (fun ir : nat * FireRow => brightness (snd ir)) filtered)
              None) as [Hnone Hsome].
  split.
  - rewrite Hnone. split.
    + intros [_ H] ir Hin. apply H. apply in_map_iff. eauto.
    + intros H. split; [reflexivity|]. intros c Hc.
      apply in_map_iff in Hc. destruct Hc as (ir & <- & Hin). auto.
  - intros m Hm. destruct (Hsome m Hm) as ([E | Hin] & _ & Hle);
      [discriminate|].
    split.
    + apply in_map_iff in Hin. destruct Hin as (ir & E & Hin). eauto.
    + intros ir q Hir Hq. apply Hle. apply in_map_iff. eauto.
Qed.

Lemma max_brightness_is_greatest_sample :
  (3001 # 10 <= 3105 # 10)%Q.
Proof.
  apply (proj2 (proj2 (max_brightness_is_greatest (gdf_rows sample_table))
                  (3105 # 10)%Q eq_refl)
           (0%nat, normalized parse_iso_date first_detection)
           (3001 # 10)%Q (or_introl eq_refl) eq_refl).
Defined.

Lemma timestamp_max_same_day (d : Date) (a b : option Timestamp) :
  (a = None \/ exists s, a = Some s /\ ts_date s = d) ->
  (exists t, b = Some t /\ ts_date t = d) ->
  exists u, timestamp_max a b = Some u /\ ts_date u = d.
Proof.
  intros [-> | (s & -> & Hs)] (t & -> & Ht); cbn; [eauto|].
  destruct (Timestamp_ltb s t); eauto.
Qed.

Lemma fold_timestamp_max_same_day (d : Date) (col : list (option Timestamp))
    (acc : option Timestamp) :
  Forall (fun c => exists t, c = Some t /\ ts_date t = d) col ->
  (exists s, acc = Some s /\ ts_date s = d) ->
  exists u, fold_left timestamp_max col acc = Some u /\ ts_date u = d.
Proof.
  intros Hcol. revert acc.
  induction Hcol as [|c col Hc _ IH]; intros acc Hacc; cbn; [exact Hacc|].
  apply IH. apply timestamp_max_same_day; [now right | exact Hc].
Qed.

(** X6.  Whenever the filtered table has a row, the Latest Detection
    metric shows the date the table was filtered by. *)
Theorem latest_detection_is_selected_date (T : FireTable) (d : Date) :
  gdf_rows (filter_by_date T d) <> [] ->
  option_map ts_date
    (series_max_timestamp
       (column (@acq_date _ _ _) (gdf_rows (filter_by_date T d))))
  = Some d.
Proof.
  intros Hne.
  assert (Hall : Forall (fun c : option Timestamp =>
                           exists t, c = Some t /\ ts_date t = d)
                   (column (@acq_date _ _ _) (gdf_rows (filter_by_date T d)))).
  { unfold column. apply Forall_forall. intros c Hc.
    apply in_map_iff in Hc. destruct Hc as (ir & <- & Hin).
    rewrite filter_by_date_rows in Hin. apply filter_In in Hin.
    destruct Hin as [_ Ha]. now apply acquired_on_spec in Ha. }
  unfold series_max_timestamp.
  destruct (column (@acq_date _ _ _) (gdf_rows (filter_by_date T d)))
    as [|c col] eqn:E.
  - unfold column in E. apply map_eq_nil in E. contradiction.
  - inversion Hall as [|c' col' Hc Hcol]; subst. cbn [fold_left].
    destruct (fold_timestamp_max_same_day d col (timestamp_max None c) Hcol)
      as (u & -> & Hu).
    + apply timestamp_max_same_day; [now left | exact Hc].
    + cbn. now rewrite Hu.
Qed.

Lemma latest_detection_is_selected_date_sample :
  option_map ts_date
    (series_max_timestamp
       (column (@acq_date _ _ _)
          (gdf_rows (filter_by_date sample_table may_2))))
  = Some may_2.
Proof.
  apply latest_detection_is_selected_date. vm_compute. discriminate.
Defined.

(** ** The map *)

Lemma map_of_finished_page (to_csv : bool -> list (nat * FireRow) -> string)
    (filtered : list (nat * FireRow)) (selected_basemap : string)
    (show_hotspots : bool) (m : LeafMap) :
  In (MapElement m)
     (finished_page to_csv filtered selected_basemap show_hotspots)
  -> m = rendered_map filtered selected_basemap show_hotspots.
Proof.
  unfold finished_page. destruct filtered as [|ir rest]; cbn [empty app In];
    intros H; repeat (destruct H as [H | H]; try discriminate H);
    try contradiction; inversion H; reflexivity.
Qed.

(** What a first run that reaches its end returned. *)
Lemma first_run_finished
    (parse_datetime : string -> option Timestamp)
    (to_csv : bool -> list (nat * FireRow) -> string)
    (rows : list RawRow) (now : Z) (ui : Sidebar)
    (filtered : FireTable) (els : list Element) (cache : option CacheEntry) :
  app parse_datetime to_csv (Ok rows) None now ui = (Ok filtered, els, cache) ->
  exists default,
    py_max (unique (dt_date (column (@acq_date _ _ _)
              (gdf_rows (normalized_table parse_datetime rows)))))
    = Ok default
    /\ filtered = filter_by_date (normalized_table parse_datetime rows)
                    (date_input (ui_date ui) default)
    /\ els = finished_page to_csv (gdf_rows filtered)
               (basemap_dict (ui_basemap ui)) (ui_hotspots ui)
    /\ cache = Some (mkCacheEntry (normalized_table parse_datetime rows) now).
Proof.
  rewrite app_first_run, page_run.
  destruct (py_max _) as [default|e]; [|discriminate].
  cbv zeta. destruct (map_failure _ _) as [e|]; [discriminate|].
  intros H. exists default.
  split; [reflexivity|]. split; [congruence|]. split; congruence.
Qed.

(** X7.  On a first run that reaches its end the map has one marker per
    filtered row, in row order.  Each marker stands at the latitude and
    longitude (in this order) of a surviving row of the feed, both
    present, and its popup shows that row's acquisition date, brightness
    and confidence; all popups show the same date. *)
Theorem markers_of_filtered_rows
    (parse_datetime : string -> option Timestamp)
    (to_csv : bool -> list (nat * FireRow) -> string)
    (rows : list RawRow) (now : Z) (ui : Sidebar)
    (filtered : FireTable) (els : list Element) (cache : option CacheEntry)
    (m : LeafMap) :
  app parse_datetime to_csv (Ok rows) None now ui = (Ok filtered, els, cache) ->
  In (MapElement m) els ->
  markers m = map (fun ir => marker_of (snd ir)) (gdf_rows filtered)
  /\ (exists d, forall mk, In mk (markers m) ->
                  popup_date (marker_popup mk) = Some d)
  /\ forall mk, In mk (markers m) ->
       exists raw t,
         In raw rows /\ survives parse_datetime raw = true
         /\ marker_location mk = (latitude raw, longitude raw)
         /\ latitude raw <> None /\ longitude raw <> None
         /\ coerced parse_datetime (acq_date raw) = Some t
         /\ popup_date (marker_popup mk) = Some (ts_date t)
         /\ popup_bright (marker_popup mk) = brightness raw
         /\ popup_conf (marker_popup mk) = confidence raw.
Proof.
  intros Hrun Hmap.
  destruct (first_run_finished _ _ _ _ _ _ _ _ Hrun)
    as (default & _ & -> & -> & _).
  clear Hrun. apply map_of_finished_page in Hmap. subst m.
  cbn [markers rendered_map].
  set (d := date_input (ui_date ui) default).
  split; [reflexivity|]. split.
  - exists d. intros mk Hmk. apply in_map_iff in Hmk.
    destruct Hmk as (ir & <- & Hin). rewrite filter_by_date_rows in Hin.
    apply filter_In in Hin. destruct Hin as [_ Ha].
    apply acquired_on_spec in Ha. destruct Ha as (t & Ht & Hd).
    cbn. rewrite Ht. cbn. now rewrite Hd.
  - intros mk Hmk. apply in_map_iff in Hmk.
    destruct Hmk as ([i fr] & <- & Hin). rewrite filter_by_date_rows in Hin.
    apply filter_In in Hin. destruct Hin as [Hin _].
    apply in_table in Hin. destruct Hin as (raw & Hn & Hs & ->).
    pose proof Hs as Hcells. apply survives_cells in Hcells.
    destruct Hcells as (Hlat & Hlon & s & t & Hd & Hp).
    exists raw, t. cbn.
    assert (Hc : coerced parse_datetime (acq_date raw) = Some t)
      by (rewrite Hd; exact Hp).
    rewrite Hc. cbn.
    repeat split; auto. eapply nth_error_In. exact Hn.
Qed.

Lemma markers_of_filtered_rows_sample :
  exists m,
    In (MapElement m)
       (snd (fst (app parse_iso_date sample_to_csv (Ok sample_feed) None 0
                    untouched_sidebar)))
    /\ List.length (markers m) = 2%nat.
Proof.
  exists (rendered_map (gdf_rows (filter_by_date sample_table may_2))
            "OpenStreetMap" true).
  assert (Hin : In (MapElement
                      (rendered_map
                         (gdf_rows (filter_by_date sample_table may_2))
                         "OpenStreetMap" true))
                  (snd (fst (app parse_iso_date sample_to_csv
                               (Ok sample_feed) None 0 untouched_sidebar))))
    by (vm_compute; tauto).
  split; [exact Hin|].
  rewrite (proj1 (markers_of_filtered_rows parse_iso_date sample_to_csv
                    sample_feed 0 untouched_sidebar
                    (filter_by_date sample_table may_2) _ _ _
                    eq_refl Hin)).
  reflexivity.
Defined.

(** X8.  On a first run that reaches its end the map has a heat layer
    exactly when the Hotspots box is ticked and the filtered table has a
    row; the layer then holds, for each filtered row in order, its
    latitude, its longitude and its brightness as weight. *)
Theorem heat_layer_is_weighted_by_brightness
    (parse_datetime : string -> option Timestamp)
    (to_csv : bool -> list (nat * FireRow) -> string)
    (rows : list RawRow) (now : Z) (ui : Sidebar)
    (filtered : FireTable) (els : list Element) (cache : option CacheEntry)
    (m : LeafMap) :
  app parse_datetime to_csv (Ok rows) None now ui = (Ok filtered, els, cache) ->
  In (MapElement m) els ->
  heatmap m
  = if ui_hotspots ui && negb (empty (gdf_rows filtered))
    then Some (map (fun ir => (latitude (snd ir), longitude (snd ir),
                               brightness (snd ir))) (gdf_rows filtered))
    else None.
Proof.
  intros Hrun Hmap.
  destruct (first_run_finished _ _ _ _ _ _ _ _ Hrun)
    as (default & _ & -> & -> & _).
  clear Hrun. apply map_of_finished_page in Hmap. subst m.
  cbn [heatmap rendered_map]. rewrite andb_comm.
  destruct (ui_hotspots ui && negb (empty _)); [|reflexivity].
  f_equal. apply map_ext_in. intros [i fr] Hin. cbn [snd].
  rewrite filter_by_date_rows in Hin. apply filter_In in Hin.
  destruct Hin as [Hin _]. apply in_table in Hin.
  destruct Hin as (raw & _ & _ & ->). reflexivity.
Qed.

Lemma heat_layer_is_weighted_by_brightness_sample :
  heatmap (rendered_map (gdf_rows (filter_by_date sample_table may_2))
             "OpenStreetMap" true)
  = Some [ (Some (560 # 10)%Q, Some (-1110 # 10)%Q, Some (3105 # 10)%Q);
           (Some (570 # 10)%Q, Some (-1120 # 10)%Q, Some (2950 # 10)%Q) ].
Proof.
  rewrite (heat_layer_is_weighted_by_brightness parse_iso_date sample_to_csv
             sample_feed 0 untouched_sidebar
             (filter_by_date sample_table may_2) _ _
             (rendered_map (gdf_rows (filter_by_date sample_table may_2))
                "OpenStreetMap" true)
             eq_refl ltac:(vm_compute; tauto)).
  reflexivity.
Defined.

(** ** What the controls change *)




(** ** The cache across runs *)

(** X10.  After a first run that loaded a feed at time [t1], a run before
    [t1 + 3600] does not use what the fetch would return now, be it other
    rows or a failure: it renders the table of the first load and leaves
    the cache as it is.  From [t1 + 3600] on a run proceeds as on an empty
    cache.  A failed fetch leaves nothing in the cache. *)
Theorem cached_table_is_served_until_expiry
    (parse_datetime : string -> option Timestamp)
    (to_csv : bool -> list (nat * FireRow) -> string)
    (rows : list RawRow) (fetched : Result (list RawRow)) (e : PyError)
    (t1 t2 : Z) (ui ui' : Sidebar) :
  (t2 < t1 + 3600 ->
   app parse_datetime to_csv fetched
     (snd (app parse_datetime to_csv (Ok rows) None t1 ui)) t2 ui'
   = (fst (app parse_datetime to_csv (Ok rows) None t1 ui'),
      snd (app parse_datetime to_csv (Ok rows) None t1 ui)))
  /\ (t1 + 3600 <= t2 ->
      app parse_datetime to_csv fetched
        (snd (app parse_datetime to_csv (Ok rows) None t1 ui)) t2 ui'
      = app parse_datetime to_csv fetched None t2 ui')
  /\ app parse_datetime to_csv (Raise e) None t1 ui = (Raise e, [], None).
Proof.
  rewrite !app_first_run. cbn [fst snd]. split; [|split].
  - intros Hlt. unfold app, cache_data. cbn [cached_at cached_value].
    destruct (Z.ltb_spec t2 (t1 + 3600)); [reflexivity | lia].
  - intros Hge. unfold app, cache_data. cbn [cached_at cached_value].
    destruct (Z.ltb_spec t2 (t1 + 3600)); [lia | reflexivity].
  - reflexivity.
Qed.

Lemma cached_table_is_served_until_expiry_sample :
  fst (app parse_iso_date sample_to_csv (Raise (FetchError FIRMS_URL))
         (snd (app parse_iso_date sample_to_csv (Ok sample_feed) None 0
                 untouched_sidebar))
         3599 untouched_sidebar)
  = fst (app parse_iso_date sample_to_csv (Ok sample_feed) None 0
           untouched_sidebar)
  /\ app parse_iso_date sample_to_csv (Raise (FetchError FIRMS_URL))
       (snd (app parse_iso_date sample_to_csv (Ok sample_feed) None 0
               untouched_sidebar))
       3600 untouched_sidebar
     = (Raise (FetchError FIRMS_URL), [], None).
Proof.
  destruct (cached_table_is_served_until_expiry parse_iso_date sample_to_csv
              sample_feed (Raise (FetchError FIRMS_URL))
              (FetchError FIRMS_URL) 0 3599 untouched_sidebar
              untouched_sidebar) as (Hhit & _ & _).
  destruct (cached_table_is_served_until_expiry parse_iso_date sample_to_csv
              sample_feed (Raise (FetchError FIRMS_URL))
              (FetchError FIRMS_URL) 0 3600 untouched_sidebar
              untouched_sidebar) as (_ & Hmiss & Hfail).
  split.
  - rewrite Hhit by lia. reflexivity.
  - rewrite Hmiss by lia. reflexivity.
Defined.

(** ** Row order and the untouched columns *)

Lemma filter_range_rows {R : Type} (p : R -> bool) (rows : list R)
    (start : nat) :
  map snd (filter (fun ir => p (snd ir))
             (combine (seq start (List.length rows)) rows))
  = filter p rows.
Proof.
  revert start. induction rows as [|r rows IH]; intros start; cbn;
    [reflexivity|].
  destruct (p r); cbn; now rewrite IH.
Qed.

Lemma filter_range_labels {R : Type} (p : nat * R -> bool) (rows : list R)
    (start : nat) :
  Forall (fun i => (start <= i)%nat)
    (map fst (filter p (combine (seq start (List.length rows)) rows)))
  /\ StronglySorted lt
       (map fst (filter p (combine (seq start (List.length rows)) rows))).
Proof.
  revert start. induction rows as [|r rows IH]; intros start; cbn.
  - split; constructor.
  - destruct (IH (S start)) as [Hge Hsorted].
    assert (Hge' : Forall (fun i => (start <= i)%nat)
                     (map fst (filter p (combine (seq (S start)
                                                   (List.length rows)) rows)))).
    { eapply Forall_impl; [|exact Hge]. cbn. intros i Hi. lia. }
    destruct (p (start, r)); cbn.
    + split; [constructor; [lia | exact Hge']|].
      constructor; [exact Hsorted|].
      eapply Forall_impl; [|exact Hge]. cbn. intros i Hi. lia.
    + split; assumption.
Qed.

Lemma increasing_NoDup (l : list nat) : StronglySorted lt l -> NoDup l.
Proof.
  induction 1 as [|a l Hs IH Hall]; constructor; [|exact IH].
  intros Hin. rewrite Forall_forall in Hall. specialize (Hall a Hin). lia.
Qed.

(** X11.  The table keeps the surviving rows of the feed in feed order
    under their feed positions as index labels, which are therefore
    strictly increasing and distinct; it has no more rows than the feed;
    and the acquisition time, confidence and satellite of a row are those
    of the feed row at its label. *)
Theorem load_firms_data_keeps_feed_order
    (parse_datetime : string -> option Timestamp) (rows : list RawRow) :
  exists gdf,
    load_firms_data parse_datetime (Ok rows) = Ok gdf
    /\ map snd (gdf_rows gdf)
       = map (normalized parse_datetime)
           (filter (survives parse_datetime) rows)
    /\ StronglySorted lt (index (gdf_rows gdf))
    /\ NoDup (index (gdf_rows gdf))
    /\ (List.length (gdf_rows gdf) <= List.length rows)%nat
    /\ forall i r, In (i, r) (gdf_rows gdf) ->
         exists raw, nth_error rows i = Some raw
                     /\ acq_time r = acq_time raw
                     /\ confidence r = confidence raw
                     /\ satellite r = satellite raw.
Proof.
  exists (normalized_table parse_datetime rows).
  split; [apply load_firms_data_table|].
  unfold normalized_table, index. cbn [gdf_rows]. rewrite !map_map.
  cbn [fst snd]. unfold range_index.
  destruct (filter_range_labels
              (fun ir : nat * RawRow => survives parse_datetime (snd ir))
              rows 0) as [_ Hsorted].
  split; [|split; [exact Hsorted|split; [|split]]].
  - rewrite <- (filter_range_rows (survives parse_datetime) rows 0).
    rewrite map_map. reflexivity.
  - exact (increasing_NoDup _ Hsorted).
  - rewrite length_map.
    etransitivity; [apply filter_length_le|].
    rewrite length_combine, length_seq. lia.
  - intros i r Hin.
    apply (in_table parse_datetime rows i r) in Hin.
    destruct Hin as (raw & Hn & _ & ->). exists raw. cbn. auto.
Qed.

Lemma load_firms_data_keeps_feed_order_sample :
  exists raw, nth_error sample_feed 0 = Some raw
              /\ satellite (normalized parse_iso_date first_detection)
                 = satellite raw.
Proof.
  destruct (load_firms_data_keeps_feed_order parse_iso_date sample_feed)
    as (gdf & Hload & _ & _ & _ & _ & Hcols).
  rewrite load_firms_data_closed_form in Hload. injection Hload as <-.
  destruct (Hcols 0%nat (normalized parse_iso_date first_detection)
              (or_introl eq_refl)) as (raw & Hn & _ & _ & Hsat).
  exists raw. split; [exact Hn | exact Hsat].
Defined.

(** ** The order of the satellite shares *)

Lemma in_insert_desc (x e : string * nat) (sorted : list (string * nat)) :
  In x (insert_desc e sorted) <-> x = e \/ In x sorted.
Proof.
  split.
  - intros H. apply (Permutation_in _ (insert_desc_perm e sorted)) in H.
    destruct H as [<- | H]; auto.
  - intros H.
    apply (Permutation_in _ (Permutation_sym (insert_desc_perm e sorted))).
    destruct H as [-> | H]; [now left | now right].
Qed.

Lemma insert_desc_sorted (e : string * nat) (sorted : list (string * nat)) :
  StronglySorted count_ge sorted ->
  StronglySorted count_ge (insert_desc e sorted).
Proof.
  induction 1 as [|e' rest Hs IH Hall]; cbn [insert_desc].
  - repeat constructor.
  - destruct (Nat.leb_spec (snd e') (snd e)) as [Hlt | Hge].
    + constructor; [constructor; assumption|].
      constructor; [unfold count_ge; lia|].
      eapply Forall_impl; [|exact Hall]. unfold count_ge. intros x Hx. lia.
    + constructor; [exact IH|].
      apply Forall_forall. intros x Hx. apply in_insert_desc in Hx.
      destruct Hx as [-> | Hx]; [unfold count_ge; lia|].
      rewrite Forall_forall in Hall. now apply Hall.
Qed.

Lemma sort_desc_sorted (counts : list (string * nat)) :
  StronglySorted count_ge (sort_desc counts).
Proof.
  unfold sort_desc. induction counts as [|e rest IH]; cbn [fold_right].
  - constructor.
  - now apply insert_desc_sorted.
Qed.

Lemma Q_of_nat_le (m n : nat) : (m <= n)%nat -> (Q_of_nat m <= Q_of_nat n)%Q.
Proof. intros H. unfold Q_of_nat, Qle. cbn. lia. Qed.

Lemma share_le (T : nat) (m n : nat) :
  (m <= n)%nat ->
  (Q_of_nat m / Q_of_nat T * 100 <= Q_of_nat n / Q_of_nat T * 100)%Q.
Proof.
  intros H. apply Qmult_le_compat_r; [|discriminate].
  unfold Qdiv. apply Qmult_le_compat_r; [now apply Q_of_nat_le|].
  apply Qinv_le_0_compat. unfold Q_of_nat, Qle. cbn. lia.
Qed.

(** X12.  The pie lists the satellites by decreasing share: no share is
    larger than a share listed before it. *)
Theorem fire_by_sat_is_in_decreasing_order (filtered : list (nat * FireRow)) :
  StronglySorted share_ge (fire_by_sat filtered).
Proof.
  unfold fire_by_sat, times, value_counts_normalized. rewrite map_map.
  cbn [fst snd].
  set (T := total (value_counts (column (@satellite _ _ _) filtered))).
  unfold value_counts.
  pose proof (sort_desc_sorted
                (fold_left tally_cell (column (@satellite _ _ _) filtered) []))
    as Hsorted.
  induction Hsorted as [|e rest Hs IH Hall]; cbn [map]; constructor.
  - exact IH.
  - apply Forall_forall. intros x Hx. apply in_map_iff in Hx.
    destruct Hx as (y & <- & Hy). rewrite Forall_forall in Hall.
    unfold share_ge. cbn [snd]. apply share_le. apply (Hall y Hy).
Qed.

(** ** Counts on the page *)


(** The bars leave out a row without acquisition time. *)
Example hourly_leaves_out_untimed_row :
  hourly (gdf_rows (normalized_table parse_iso_date feed_with_untimed_row))
  = [(13, 1%nat)]
  /\ groupby_size [Some 13; None; Some 0; Some 13] = [(0, 1%nat); (13, 2%nat)].
Proof. split; reflexivity. Qed.

(** Equal counts keep the order of first appearance. *)
Example value_counts_keeps_first_appearance :
  value_counts [Some "Terra"; Some "Aqua"; None; Some "Suomi"; Some "Aqua"]
  = [("Aqua", 2%nat); ("Terra", 1%nat); ("Suomi", 1%nat)].
Proof. reflexivity. Qed.


(** ** No valid row is lost *)

(** X14.  A feed row is in the table, under its position in the feed,
    exactly when it has a latitude, a longitude and a date text that
    parses: no such row is lost, and a row without latitude or without
    longitude is dropped whatever its other fields. *)
Theorem load_firms_data_keeps_exactly_the_valid_rows
    (parse_datetime : string -> option Timestamp) (rows : list RawRow) :
  exists gdf,
    load_firms_data parse_datetime (Ok rows) = Ok gdf
    /\ (forall i raw, nth_error rows i = Some raw ->
          (In i (index (gdf_rows gdf))
           <-> latitude raw <> None /\ longitude raw <> None
               /\ exists s t, acq_date raw = Some s
                              /\ parse_datetime s = Some t))
    /\ (forall i raw, nth_error rows i = Some raw ->
          latitude raw = None \/ longitude raw = None ->
          ~ In i (index (gdf_rows gdf)))
    /\ (forall i, In i (index (gdf_rows gdf)) -> (i < List.length rows)%nat).
Proof.
  pose proof (load_firms_data_closed_form parse_datetime rows) as Hload.
  eexists. split; [exact Hload|].
  assert (Hiff : forall i raw, nth_error rows i = Some raw ->
            (In i (index (gdf_rows (normalized_table parse_datetime rows)))
             <-> survives parse_datetime raw = true)).
  { intros i raw Hn.
    rewrite (index_normalized_table parse_datetime rows _ i Hload). split.
    - intros (raw' & Hn' & Hs). congruence.
    - intros Hs. eauto. }
  split; [|split].
  - intros i raw Hn. rewrite (Hiff i raw Hn). apply survives_cells.
  - intros i raw Hn Hmissing Hin. apply (Hiff i raw Hn) in Hin.
    apply survives_cells in Hin. destruct Hin as (Hlat & Hlon & _).
    destruct Hmissing; contradiction.
  - intros i Hin.
    apply (index_normalized_table parse_datetime rows _ i Hload) in Hin.
    destruct Hin as (raw & Hn & _). apply nth_error_Some. congruence.
Qed.

Lemma load_firms_data_keeps_exactly_the_valid_rows_sample :
  exists gdf,
    load_firms_data parse_iso_date (Ok sample_feed) = Ok gdf
    /\ In 3%nat (index (gdf_rows gdf))
    /\ ~ In 2%nat (index (gdf_rows gdf)).
Proof.
  destruct (load_firms_data_keeps_exactly_the_valid_rows parse_iso_date
              sample_feed) as (gdf & Hload & Hkept & Hdropped & _).
  exists gdf. split; [exact Hload|]. split.
  - apply (proj2 (Hkept 3%nat _ eq_refl)).
    split; [discriminate|]. split; [discriminate|].
    exists "2024-05-02", (mkTimestamp may_2 0). split; reflexivity.
  - apply (Hdropped 2%nat _ eq_refl). now left.
Defined.
